(** * A shallow embedding of the mini 3D collection game of [src/main.js]

    The game keeps all of its state in module-level variables and mutates
    them from the frame callback [animate] and the functions it calls.
    Here that state is one record, [Game], and every function of the
    source is a function on [Game].

    Numbers are JavaScript numbers: IEEE-754 binary64, the kernel's
    primitive [float].  [NaN], the infinities and the signed zeros are
    therefore in the model, with the arithmetic the program runs.

    What the browser and the three.js library provide is modelled as far
    as the game reads it:
    - [Math.cos], [Math.sin] and [Math.pow] are implementation-approximated
      in ECMAScript; they are fields of a [Host];
    - [Math.random()] and [performance.now()] are oracles of the [Host]:
      the n-th call returns the n-th value, and the state counts the calls;
    - [requestAnimationFrame], [cancelAnimationFrame] and [setTimeout] keep
      their pending callbacks in the state;
    - the methods of [THREE.Vector3] and [THREE.Quaternion] the game calls
      are written out from three.js r159;
    - the direction the camera looks in after [camera.lookAt] is computed by
      three.js from matrices the game never reads; it is a function of the
      [Host] as well.
    The renderer, the scene graph, the materials and the score label (which
    always shows [score]) are left out: no function of the game reads them
    back. *)

From Stdlib Require Import Floats ZArith List String Bool Lia.
Import ListNotations.

Set Warnings "-inexact-float".
Local Open Scope float_scope.

(** ** JavaScript numbers *)

Module JS.

(** A value that is a number or [undefined] (a missing argument). *)
Inductive Value : Type :=
| undefined
| Num (n : float).

(** [ToNumber]: [undefined] converts to [NaN]. *)
Definition toNumber (v : Value) : float :=
  match v with
  | undefined => nan
  | Num n => n
  end.

(** The binary [-] and [/] on values that may be [undefined]. *)
Definition minus (a b : Value) : float := toNumber a - toNumber b.

(** [a > b] is [b < a]; every comparison with [NaN] is false. *)
Definition gt (a b : float) : bool := b <? a.
Definition ge (a b : float) : bool := b <=? a.

(** [ToBoolean] of a number: [0], [-0] and [NaN] are falsy. *)
Definition truthy (a : float) : bool := negb ((a =? 0) || is_nan a).

(** [a || b] on numbers. *)
Definition or (a b : float) : float := if truthy a then a else b.

(** [Math.min(a, b)]: [NaN] if either is, and [-0] is below [+0]. *)
Definition Math_min (a b : float) : float :=
  if is_nan a || is_nan b then nan
  else if a <? b then a
  else if b <? a then b
  else if get_sign a then a else b.

Definition Math_sqrt (a : float) : float := sqrt a.

Definition Math_PI : float := 3.141592653589793.

End JS.

(** ** The three.js value types the game uses *)

Module THREE.

Record Vector3 : Type := vec3 { x : float; y : float; z : float }.

(** [new THREE.Vector3()] *)
Definition origin : Vector3 := vec3 0 0 0.

Definition setX (a : float) (v : Vector3) : Vector3 := vec3 a (y v) (z v).
Definition setY (a : float) (v : Vector3) : Vector3 := vec3 (x v) a (z v).
Definition setZ (a : float) (v : Vector3) : Vector3 := vec3 (x v) (y v) a.

(** [this.x += v.x * s; this.y += v.y * s; this.z += v.z * s] *)
Definition addScaledVector (this v : Vector3) (s : float) : Vector3 :=
  vec3 (x this + x v * s) (y this + y v * s) (z this + z v * s).

Definition multiplyScalar (this : Vector3) (s : float) : Vector3 :=
  vec3 (x this * s) (y this * s) (z this * s).

(** [return this.multiplyScalar(1 / scalar)] *)
Definition divideScalar (this : Vector3) (s : float) : Vector3 :=
  multiplyScalar this (1 / s).

Definition length (this : Vector3) : float :=
  JS.Math_sqrt (x this * x this + y this * y this + z this * z this).

(** The scalar [normalize] divides by: [this.length() || 1]. *)
Definition normalizeDivisor (this : Vector3) : float :=
  JS.or (length this) 1.

(** [return this.divideScalar(this.length() || 1)] *)
Definition normalize (this : Vector3) : Vector3 :=
  divideScalar this (normalizeDivisor this).

(** [return this.normalize().multiplyScalar(length)] *)
Definition setLength (this : Vector3) (l : float) : Vector3 :=
  multiplyScalar (normalize this) l.

Definition crossVectors (a b : Vector3) : Vector3 :=
  vec3 (y a * z b - z a * y b)
       (z a * x b - x a * z b)
       (x a * y b - y a * x b).

Definition distanceToSquared (this v : Vector3) : float :=
  let dx := x this - x v in
  let dy := y this - y v in
  let dz := z this - z v in
  dx * dx + dy * dy + dz * dz.

(** [this.x += (v.x - this.x) * alpha; ...] *)
Definition lerp (this v : Vector3) (alpha : float) : Vector3 :=
  vec3 (x this + (x v - x this) * alpha)
       (y this + (y v - y this) * alpha)
       (z this + (z v - z this) * alpha).

Record Quaternion : Type := quat { qx : float; qy : float; qz : float; qw : float }.

Definition identity : Quaternion := quat 0 0 0 1.

Definition multiplyQuaternions (a b : Quaternion) : Quaternion :=
  quat (qx a * qw b + qw a * qx b + qy a * qz b - qz a * qy b)
       (qy a * qw b + qw a * qy b + qz a * qx b - qx a * qz b)
       (qz a * qw b + qw a * qz b + qx a * qy b - qy a * qx b)
       (qw a * qw b - qx a * qx b - qy a * qy b - qz a * qz b).

(** Componentwise numeric equality ([===] on each coordinate). *)
Definition eqb (a b : Vector3) : bool :=
  (x a =? x b) && (y a =? y b) && (z a =? z b).

(** Every coordinate is a zero ([+0] or [-0]). *)
Definition isZero (a : Vector3) : bool := eqb a origin.

Definition hasNaN (a : Vector3) : bool :=
  is_nan (x a) || is_nan (y a) || is_nan (z a).

End THREE.

(** ** The state of the game *)

(** A collectible cube: [new THREE.Mesh(geom, mat)] with its position. *)
Record Mesh : Type := mkMesh {
  mesh_id : nat;
  position : THREE.Vector3
}.

(** [ob.userData = { phase, radius, speed }] *)
Record UserData : Type := mkUserData {
  phase : float;
  radius : float;
  speed : float
}.

(** A hazard: a mesh with its orbit parameters and its yaw [ob.rotation.y]. *)
Record Obstacle : Type := mkObstacle {
  ob_id : nat;
  ob_position : THREE.Vector3;
  ob_rotation_y : float;
  userData : UserData
}.

(** The closures the game hands to [requestAnimationFrame]: [animate], and
    the [tick] of one [shakeCamera] call with the variables it captured. *)
Inductive FrameCallback : Type :=
| animate_callback
| tick_callback (start : float) (orig : THREE.Vector3) (amount ms : float).

(** The closures the game hands to [setTimeout]. *)
Inductive TimerCallback : Type :=
| spawn_callback (n : nat)          (* () => spawnItems(1) *)
| restore_callback (prev : string). (* () => { messageEl.textContent = prev; } *)

Record Game : Type := mkGame {
  (** [camera.position] *)
  camera_position : THREE.Vector3;
  (** what [camera.getWorldDirection] returns *)
  camera_direction : THREE.Vector3;
  (** [player.position] *)
  player_position : THREE.Vector3;
  (** [player.quaternion], turned by the visual roll *)
  player_quaternion : THREE.Quaternion;
  items : list Mesh;
  obstacles : list Obstacle;
  (** [keys[code]]; a code never set reads as false *)
  keys : string -> bool;
  velocity : THREE.Vector3;
  score : Z;
  started : bool;
  lastTime : JS.Value;
  shakeTimeout : nat;
  (** [messageEl.textContent] *)
  messageText : string;
  (** pending [setTimeout] calls with their delay in ms, oldest first *)
  timeouts : list (Z * TimerCallback);
  (** pending [requestAnimationFrame] calls by handle, oldest first *)
  frameRequests : list (nat * FrameCallback);
  (** the handle the next [requestAnimationFrame] returns *)
  nextHandle : nat;
  (** how many times [performance.now()] was called *)
  perfReads : nat;
  (** how many times [Math.random()] was called *)
  randReads : nat;
  (** the id the next [new THREE.Mesh] gets *)
  nextMeshId : nat
}.

(** Assignment to one variable of the state. *)

Definition set_camera_position (v : THREE.Vector3) (st : Game) : Game :=
  mkGame v (camera_direction st) (player_position st) (player_quaternion st) (items st)
    (obstacles st) (keys st) (velocity st) (score st) (started st) (lastTime st)
    (shakeTimeout st) (messageText st) (timeouts st) (frameRequests st) (nextHandle st)
    (perfReads st) (randReads st) (nextMeshId st).

Definition set_camera_direction (v : THREE.Vector3) (st : Game) : Game :=
  mkGame (camera_position st) v (player_position st) (player_quaternion st) (items st)
    (obstacles st) (keys st) (velocity st) (score st) (started st) (lastTime st)
    (shakeTimeout st) (messageText st) (timeouts st) (frameRequests st) (nextHandle st)
    (perfReads st) (randReads st) (nextMeshId st).

Definition set_player_position (v : THREE.Vector3) (st : Game) : Game :=
  mkGame (camera_position st) (camera_direction st) v (player_quaternion st) (items st)
    (obstacles st) (keys st) (velocity st) (score st) (started st) (lastTime st)
    (shakeTimeout st) (messageText st) (timeouts st) (frameRequests st) (nextHandle st)
    (perfReads st) (randReads st) (nextMeshId st).

Definition set_player_quaternion (v : THREE.Quaternion) (st : Game) : Game :=
  mkGame (camera_position st) (camera_direction st) (player_position st) v (items st)
    (obstacles st) (keys st) (velocity st) (score st) (started st) (lastTime st)
    (shakeTimeout st) (messageText st) (timeouts st) (frameRequests st) (nextHandle st)
    (perfReads st) (randReads st) (nextMeshId st).

Definition set_items (v : list Mesh) (st : Game) : Game :=
  mkGame (camera_position st) (camera_direction st) (player_position st)
    (player_quaternion st) v (obstacles st) (keys st) (velocity st) (score st) (started
    st) (lastTime st) (shakeTimeout st) (messageText st) (timeouts st) (frameRequests
    st) (nextHandle st) (perfReads st) (randReads st) (nextMeshId st).

Definition set_obstacles (v : list Obstacle) (st : Game) : Game :=
  mkGame (camera_position st) (camera_direction st) (player_position st)
    (player_quaternion st) (items st) v (keys st) (velocity st) (score st) (started st)
    (lastTime st) (shakeTimeout st) (messageText st) (timeouts st) (frameRequests st)
    (nextHandle st) (perfReads st) (randReads st) (nextMeshId st).

Definition set_keys (v : string -> bool) (st : Game) : Game :=
  mkGame (camera_position st) (camera_direction st) (player_position st)
    (player_quaternion st) (items st) (obstacles st) v (velocity st) (score st) (started
    st) (lastTime st) (shakeTimeout st) (messageText st) (timeouts st) (frameRequests
    st) (nextHandle st) (perfReads st) (randReads st) (nextMeshId st).

Definition set_velocity (v : THREE.Vector3) (st : Game) : Game :=
  mkGame (camera_position st) (camera_direction st) (player_position st)
    (player_quaternion st) (items st) (obstacles st) (keys st) v (score st) (started st)
    (lastTime st) (shakeTimeout st) (messageText st) (timeouts st) (frameRequests st)
    (nextHandle st) (perfReads st) (randReads st) (nextMeshId st).

Definition set_score (v : Z) (st : Game) : Game :=
  mkGame (camera_position st) (camera_direction st) (player_position st)
    (player_quaternion st) (items st) (obstacles st) (keys st) (velocity st) v (started
    st) (lastTime st) (shakeTimeout st) (messageText st) (timeouts st) (frameRequests
    st) (nextHandle st) (perfReads st) (randReads st) (nextMeshId st).

Definition set_started (v : bool) (st : Game) : Game :=
  mkGame (camera_position st) (camera_direction st) (player_position st)
    (player_quaternion st) (items st) (obstacles st) (keys st) (velocity st) (score st)
    v (lastTime st) (shakeTimeout st) (messageText st) (timeouts st) (frameRequests st)
    (nextHandle st) (perfReads st) (randReads st) (nextMeshId st).

Definition set_lastTime (v : JS.Value) (st : Game) : Game :=
  mkGame (camera_position st) (camera_direction st) (player_position st)
    (player_quaternion st) (items st) (obstacles st) (keys st) (velocity st) (score st)
    (started st) v (shakeTimeout st) (messageText st) (timeouts st) (frameRequests st)
    (nextHandle st) (perfReads st) (randReads st) (nextMeshId st).

Definition set_shakeTimeout (v : nat) (st : Game) : Game :=
  mkGame (camera_position st) (camera_direction st) (player_position st)
    (player_quaternion st) (items st) (obstacles st) (keys st) (velocity st) (score st)
    (started st) (lastTime st) v (messageText st) (timeouts st) (frameRequests st)
    (nextHandle st) (perfReads st) (randReads st) (nextMeshId st).

Definition set_messageText (v : string) (st : Game) : Game :=
  mkGame (camera_position st) (camera_direction st) (player_position st)
    (player_quaternion st) (items st) (obstacles st) (keys st) (velocity st) (score st)
    (started st) (lastTime st) (shakeTimeout st) v (timeouts st) (frameRequests st)
    (nextHandle st) (perfReads st) (randReads st) (nextMeshId st).

Definition set_timeouts (v : list (Z * TimerCallback)) (st : Game) : Game :=
  mkGame (camera_position st) (camera_direction st) (player_position st)
    (player_quaternion st) (items st) (obstacles st) (keys st) (velocity st) (score st)
    (started st) (lastTime st) (shakeTimeout st) (messageText st) v (frameRequests st)
    (nextHandle st) (perfReads st) (randReads st) (nextMeshId st).

Definition set_frameRequests (v : list (nat * FrameCallback)) (st : Game) : Game :=
  mkGame (camera_position st) (camera_direction st) (player_position st)
    (player_quaternion st) (items st) (obstacles st) (keys st) (velocity st) (score st)
    (started st) (lastTime st) (shakeTimeout st) (messageText st) (timeouts st) v
    (nextHandle st) (perfReads st) (randReads st) (nextMeshId st).

Definition set_nextHandle (v : nat) (st : Game) : Game :=
  mkGame (camera_position st) (camera_direction st) (player_position st)
    (player_quaternion st) (items st) (obstacles st) (keys st) (velocity st) (score st)
    (started st) (lastTime st) (shakeTimeout st) (messageText st) (timeouts st)
    (frameRequests st) v (perfReads st) (randReads st) (nextMeshId st).

Definition set_perfReads (v : nat) (st : Game) : Game :=
  mkGame (camera_position st) (camera_direction st) (player_position st)
    (player_quaternion st) (items st) (obstacles st) (keys st) (velocity st) (score st)
    (started st) (lastTime st) (shakeTimeout st) (messageText st) (timeouts st)
    (frameRequests st) (nextHandle st) v (randReads st) (nextMeshId st).

Definition set_randReads (v : nat) (st : Game) : Game :=
  mkGame (camera_position st) (camera_direction st) (player_position st)
    (player_quaternion st) (items st) (obstacles st) (keys st) (velocity st) (score st)
    (started st) (lastTime st) (shakeTimeout st) (messageText st) (timeouts st)
    (frameRequests st) (nextHandle st) (perfReads st) v (nextMeshId st).

Definition set_nextMeshId (v : nat) (st : Game) : Game :=
  mkGame (camera_position st) (camera_direction st) (player_position st)
    (player_quaternion st) (items st) (obstacles st) (keys st) (velocity st) (score st)
    (started st) (lastTime st) (shakeTimeout st) (messageText st) (timeouts st)
    (frameRequests st) (nextHandle st) (perfReads st) (randReads st) v.

(** ** What the browser provides *)

Record Host : Type := mkHost {
  Math_cos : float -> float;
  Math_sin : float -> float;
  Math_pow : float -> float -> float;
  (** the value of the n-th call of [Math.random()] *)
  Math_random : nat -> float;
  (** the value of the n-th call of [performance.now()], in ms *)
  performance_now : nat -> float;
  (** the world direction of a camera at [eye] after [lookAt(target)] *)
  lookDirection : THREE.Vector3 -> THREE.Vector3 -> THREE.Vector3
}.

(** ** Constants of the source *)

Definition playerRadius : float := 0.8.
Definition ITEM_COUNT : nat := 8.
Definition WORLD_RADIUS : float := 40.

(** The score only ever holds integers: it starts at 0 and changes by
    [score += 10] and [score = Math.max(0, score - 20)], which binary64
    computes exactly below 2^53.  It is modelled as an integer. *)
Definition ITEM_REWARD : Z := 10.
Definition OBSTACLE_PENALTY : Z := 20.

(** [keys[code] = b], as the keydown and keyup handlers do. *)
Definition setKey (code : string) (b : bool) (st : Game) : Game :=
  set_keys (fun c => if String.eqb c code then b else keys st c) st.

Definition keydown (code : string) : Game -> Game := setKey code true.
Definition keyup (code : string) : Game -> Game := setKey code false.

Section Simulation.

Variable host : Host.

(** *** Browser calls *)

(** [performance.now()] *)
Definition now (st : Game) : float * Game :=
  (performance_now host (perfReads st), set_perfReads (S (perfReads st)) st).

(** [Math.random()] *)
Definition random (st : Game) : float * Game :=
  (Math_random host (randReads st), set_randReads (S (randReads st)) st).

Definition requestAnimationFrame (cb : FrameCallback) (st : Game) : nat * Game :=
  (nextHandle st,
   set_nextHandle (S (nextHandle st))
     (set_frameRequests (frameRequests st ++ [(nextHandle st, cb)]) st)).

Definition cancelAnimationFrame (handle : nat) (st : Game) : Game :=
  set_frameRequests
    (filter (fun r => negb (Nat.eqb (fst r) handle)) (frameRequests st)) st.

Definition setTimeout (cb : TimerCallback) (ms : Z) (st : Game) : Game :=
  set_timeouts (timeouts st ++ [(ms, cb)]) st.

(** *** Spawning *)

(** [randomPoint(radius)]: a random point inside the disc. *)
Definition randomPoint (rad : float) (st : Game) : THREE.Vector3 * Game :=
  let (u, st) := random st in
  let r := JS.Math_sqrt u * rad in
  let (u', st) := random st in
  let t := u' * JS.Math_PI * 2 in
  (THREE.vec3 (Math_cos host t * r) 0 (Math_sin host t * r), st).

Fixpoint spawnItems (n : nat) (st : Game) : Game :=
  match n with
  | O => st
  | S n' =>
      let id := nextMeshId st in
      let st := set_nextMeshId (S id) st in
      let (pos, st) := randomPoint (WORLD_RADIUS * 0.6) st in
      let m := mkMesh id (THREE.vec3 (THREE.x pos) 0.6 (THREE.z pos)) in
      let st := set_items (items st ++ [m]) st in
      spawnItems n' st
  end.

Fixpoint spawnObstacles (n : nat) (st : Game) : Game :=
  match n with
  | O => st
  | S n' =>
      let id := nextMeshId st in
      let st := set_nextMeshId (S id) st in
      let (pos, st) := randomPoint (WORLD_RADIUS * 0.8) st in
      let (u1, st) := random st in
      let (u2, st) := random st in
      let (u3, st) := random st in
      let ud := mkUserData (u1 * JS.Math_PI * 2) (6 + u2 * 10) (0.6 + u3 * 0.8) in
      let ob := mkObstacle id (THREE.vec3 (THREE.x pos) 1 (THREE.z pos)) 0 ud in
      let st := set_obstacles (obstacles st ++ [ob]) st in
      spawnObstacles n' st
  end.

(** The state [init()] leaves, with the module-level initialisers:
    the camera at (0, 8, 12) looking down -z, the player on the ground at
    the centre, 8 items and 4 obstacles.  [message] is the text the page
    shows at load. *)
Definition init (message : string) : Game :=
  let st :=
    mkGame (THREE.vec3 0 8 12) (THREE.vec3 0 0 (-1))
           (THREE.vec3 0 playerRadius 0) THREE.identity
           [] [] (fun _ => false) THREE.origin 0%Z false (JS.Num 0) 0
           message [] [] 1 0 0 0 in
  let st := spawnItems ITEM_COUNT st in
  spawnObstacles 4 st.

(** *** The motion update *)

(** [keys[a] || keys[b]] *)
Definition pressed (st : Game) (a b : string) : bool := keys st a || keys st b.

(** The four [if (keys[..] || keys[..]) input.. -= 1] lines: [(inputX, inputZ)]. *)
Definition input (st : Game) : float * float :=
  let inputX := 0 in
  let inputZ := 0 in
  let inputZ := if pressed st "KeyW" "ArrowUp" then inputZ - 1 else inputZ in
  let inputZ := if pressed st "KeyS" "ArrowDown" then inputZ + 1 else inputZ in
  let inputX := if pressed st "KeyA" "ArrowLeft" then inputX - 1 else inputX in
  let inputX := if pressed st "KeyD" "ArrowRight" then inputX + 1 else inputX in
  (inputX, inputZ).

(** [forward]: the camera's world direction, flattened and normalized. *)
Definition forwardOf (st : Game) : THREE.Vector3 :=
  let forward := camera_direction st in
  let forward := THREE.setY 0 forward in
  THREE.normalize forward.

(** [right = new Vector3().crossVectors(new Vector3(0,1,0), forward).normalize()] *)
Definition rightOf (forward : THREE.Vector3) : THREE.Vector3 :=
  THREE.normalize (THREE.crossVectors (THREE.vec3 0 1 0) forward).

(** [force], from the input and the camera-relative directions. *)
Definition forceOf (st : Game) : THREE.Vector3 :=
  let accel := 18 in
  let (inputX, inputZ) := input st in
  let forward := forwardOf st in
  let right := rightOf forward in
  let force := THREE.origin in
  let force := THREE.addScaledVector force forward (inputZ * accel) in
  THREE.addScaledVector force right (inputX * accel).

(** Velocity: force, damping, speed clamp. *)
Definition accelerate (dt : float) (st : Game) : Game :=
  let force := forceOf st in
  let st := set_velocity (THREE.addScaledVector (velocity st) force dt) st in
  let st := set_velocity
              (THREE.multiplyScalar (velocity st) (Math_pow host 0.8 (dt * 10))) st in
  let maxSpeed := 10 in
  if JS.gt (THREE.length (velocity st)) maxSpeed
  then set_velocity (THREE.setLength (velocity st) maxSpeed) st
  else st.

(** [player.position.addScaledVector(velocity, dt); player.position.y = playerRadius] *)
Definition move (dt : float) (st : Game) : Game :=
  let st := set_player_position
              (THREE.addScaledVector (player_position st) (velocity st) dt) st in
  set_player_position (THREE.setY playerRadius (player_position st)) st.

(** [dist]: the horizontal distance from the centre of the arena. *)
Definition horizontalDistance (p : THREE.Vector3) : float :=
  JS.Math_sqrt (THREE.x p * THREE.x p + THREE.z p * THREE.z p).

(** [if (dist > WORLD_RADIUS) { ... }]: keep inside the world radius. *)
Definition contain (st : Game) : Game :=
  let dist := horizontalDistance (player_position st) in
  if JS.gt dist WORLD_RADIUS then
    let st := set_player_position
                (THREE.setX (THREE.x (player_position st) * (WORLD_RADIUS / dist))
                   (player_position st)) st in
    let st := set_player_position
                (THREE.setZ (THREE.z (player_position st) * (WORLD_RADIUS / dist))
                   (player_position st)) st in
    set_velocity (THREE.multiplyScalar (velocity st) 0.3) st
  else st.

(** [_q1.setFromAxisAngle(axis, angle); this.quaternion.premultiply(_q1)] *)
Definition rotateOnWorldAxis (axis : THREE.Vector3) (angle : float)
    (q : THREE.Quaternion) : THREE.Quaternion :=
  let halfAngle := angle / 2 in
  let s := Math_sin host halfAngle in
  let q1 := THREE.quat (THREE.x axis * s) (THREE.y axis * s) (THREE.z axis * s)
              (Math_cos host halfAngle) in
  THREE.multiplyQuaternions q1 q.

(** The visual roll of the sphere. *)
Definition roll (dt : float) (st : Game) : Game :=
  let travel := THREE.length (velocity st) * dt in
  if JS.gt travel 0.0001 then
    let axis := THREE.normalize
                  (THREE.crossVectors (THREE.vec3 0 1 0) (velocity st)) in
    let angle := travel / playerRadius in
    set_player_quaternion (rotateOnWorldAxis axis angle (player_quaternion st)) st
  else st.

Definition updatePlayer (dt : float) (st : Game) : Game :=
  let st := accelerate dt st in
  let st := move dt st in
  let st := contain st in
  roll dt st.

(** *** Hazard kinematics *)

(** The body of the loop of [updateObstacles], for one obstacle at time [t]. *)
Definition orbit (t : float) (ob : Obstacle) : Obstacle :=
  let ud := userData ob in
  let x := Math_cos host (t * speed ud + phase ud) * radius ud in
  let z := Math_sin host (t * speed ud + phase ud) * radius ud in
  let pos := THREE.vec3 x 1 z in                       (* ob.position.set(x, 1, z) *)
  let pos := THREE.setY (1 + Math_sin host (t * speed ud + phase ud * 0.3) * 0.5) pos in
  mkObstacle (ob_id ob) pos (t * speed ud) ud.

(** [for (let ob of obstacles) { ... }] *)
Fixpoint orbitAll (t : float) (obs : list Obstacle) : list Obstacle :=
  match obs with
  | [] => []
  | ob :: rest => orbit t ob :: orbitAll t rest
  end.

Definition updateObstacles (dt : float) (st : Game) : Game :=
  let (ms, st) := now st in
  let t := ms / 1000 in
  set_obstacles (orbitAll t (obstacles st)) st.

(** *** Messages *)

Definition flashMessage (text : string) (ms : Z) (st : Game) : Game :=
  let prev := messageText st in
  let st := set_messageText text st in
  setTimeout (restore_callback prev) ms st.

(** *** Pickups *)

(** [items.splice(i, 1)] *)
Definition splice1 {A : Type} (i : nat) (l : list A) : list A :=
  firstn i l ++ skipn (S i) l.

(** [d2 < r*r] with [r = playerRadius + 0.9] *)
Definition itemHit (p : THREE.Vector3) (it : Mesh) : bool :=
  let d2 := THREE.distanceToSquared p (position it) in
  let r := playerRadius + 0.9 in
  d2 <? r * r.

(** The body of the [if]: collect the item at index [i]. *)
Definition collect (i : nat) (st : Game) : Game :=
  let st := set_items (splice1 i (items st)) st in
  let st := set_score (score st + ITEM_REWARD)%Z st in
  let st := setTimeout (spawn_callback 1) 800 st in
  flashMessage "+10!" 700 st.

(** [for (let i = ..; i >= 0; i--)], entered with [n = i + 1].  Reading
    [items[i]] past the end gives [undefined], and [it.position] then
    throws: that is [None]. *)
Fixpoint checkItemsFrom (n : nat) (st : Game) : option Game :=
  match n with
  | O => Some st
  | S i =>
      match nth_error (items st) i with
      | None => None
      | Some it =>
          let st := if itemHit (player_position st) it then collect i st else st in
          checkItemsFrom i st
      end
  end.

Definition checkItemCollisions (st : Game) : option Game :=
  checkItemsFrom (List.length (items st)) st.

(** *** Camera shake *)

(** One run of the closure [tick] of [shakeCamera(amount, ms)], which
    captured [start] and [orig]. *)
Definition tick (start : float) (orig : THREE.Vector3) (amount ms : float)
    (st : Game) : Game :=
  let (n, st) := now st in
  let t := (n - start) / ms in
  if JS.ge t 1 then
    set_camera_position orig st
  else
    let f := 1 - t in
    let (r1, st) := random st in
    let st := set_camera_position
                (THREE.setX (THREE.x orig + (r1 - 0.5) * amount * f)
                   (camera_position st)) st in
    let (r2, st) := random st in
    let st := set_camera_position
                (THREE.setY (THREE.y orig + (r2 - 0.5) * amount * f)
                   (camera_position st)) st in
    let (r3, st) := random st in
    let st := set_camera_position
                (THREE.setZ (THREE.z orig + (r3 - 0.5) * amount * f)
                   (camera_position st)) st in
    let (h, st) := requestAnimationFrame (tick_callback start orig amount ms) st in
    set_shakeTimeout h st.

Definition shakeCamera (amount ms : float) (st : Game) : Game :=
  let (start, st) := now st in
  let orig := camera_position st in                   (* camera.position.clone() *)
  let st := cancelAnimationFrame (shakeTimeout st) st in
  tick start orig amount ms st.

(** *** Hazards *)

(** [d2 < r*r] with [r = playerRadius + 1.2] *)
Definition obstacleHit (p : THREE.Vector3) (ob : Obstacle) : bool :=
  let d2 := THREE.distanceToSquared p (ob_position ob) in
  let r := playerRadius + 1.2 in
  d2 <? r * r.

(** The body of the [if]: teleport to the centre and reduce the score. *)
Definition penalize (st : Game) : Game :=
  let st := set_player_position (THREE.vec3 0 playerRadius 0) st in
  let st := set_velocity (THREE.vec3 0 0 0) st in
  let st := set_score (Z.max 0 (score st - OBSTACLE_PENALTY)) st in
  let st := flashMessage "Ouch! -20" 900 st in
  shakeCamera 0.35 350 st.

(** [for (let ob of obstacles) { ... }]: the loop never changes [obstacles]. *)
Fixpoint checkObstaclesIn (obs : list Obstacle) (st : Game) : Game :=
  match obs with
  | [] => st
  | ob :: rest =>
      let st := if obstacleHit (player_position st) ob then penalize st else st in
      checkObstaclesIn rest st
  end.

Definition checkObstacleCollisions (st : Game) : Game :=
  checkObstaclesIn (obstacles st) st.

(** *** Camera follow *)

Definition updateCamera (st : Game) : Game :=
  let p := player_position st in
  let desired := THREE.vec3 (THREE.x p) (THREE.y p + 6.5) (THREE.z p + 11) in
  let st := set_camera_position (THREE.lerp (camera_position st) desired 0.08) st in
  let target := THREE.vec3 (THREE.x p) (THREE.y p + 1.2) (THREE.z p) in
  set_camera_direction (lookDirection host (camera_position st) target) st.

(** *** The frame loop *)

(** [Math.min(0.05, (now - lastTime) / 1000)] *)
Definition frameStep (now last : JS.Value) : float :=
  JS.Math_min 0.05 (JS.minus now last / 1000).

(** [animate(now)].  [None]: an exception left the callback. *)
Definition animate (now : JS.Value) (st : Game) : option Game :=
  if negb (started st) then Some st
  else
    let dt := frameStep now (lastTime st) in
    let st := set_lastTime now st in
    let st := updatePlayer dt st in
    let st := updateObstacles dt st in
    match checkItemCollisions st with
    | None => None
    | Some st =>
        let st := checkObstacleCollisions st in
        let st := updateCamera st in
        Some (snd (requestAnimationFrame animate_callback st))
    end.

Definition startGame (st : Game) : option Game :=
  if started st then Some st
  else
    let st := set_started true st in
    let st := set_score 0%Z st in
    let st := set_messageText "Go! Collect cubes!" st in
    let st := set_player_position (THREE.vec3 0 playerRadius 0) st in
    let st := set_velocity (THREE.vec3 0 0 0) st in
    let st := if Nat.ltb (List.length (items st)) ITEM_COUNT
              then spawnItems (ITEM_COUNT - List.length (items st)) st
              else st in
    let (t, st) := now st in
    let st := set_lastTime (JS.Num t) st in
    animate JS.undefined st.                           (* animate(); *)

(** *** The browser's side of the loop *)

Definition runFrameCallback (cb : FrameCallback) (timestamp : float)
    (st : Game) : option Game :=
  match cb with
  | animate_callback => animate (JS.Num timestamp) st
  | tick_callback start orig amount ms => Some (tick start orig amount ms st)
  end.

Definition lookupRequest (handle : nat) (st : Game) : option FrameCallback :=
  match find (fun r => Nat.eqb (fst r) handle) (frameRequests st) with
  | Some r => Some (snd r)
  | None => None
  end.

(** Run the callbacks of the given handles in order; one cancelled by an
    earlier callback of the same frame is skipped. *)
Fixpoint runHandles (handles : list nat) (timestamp : float) (st : Game)
    : option Game :=
  match handles with
  | [] => Some st
  | h :: rest =>
      match lookupRequest h st with
      | None => runHandles rest timestamp st
      | Some cb =>
          match runFrameCallback cb timestamp (cancelAnimationFrame h st) with
          | None => None
          | Some st => runHandles rest timestamp st
          end
      end
  end.

(** One animation frame: the callbacks pending when it begins are run;
    those requested meanwhile wait for the next frame. *)
Definition runFrame (timestamp : float) (st : Game) : option Game :=
  runHandles (map fst (frameRequests st)) timestamp st.

(** A timer fires. *)
Definition runTimerCallback (cb : TimerCallback) (st : Game) : Game :=
  match cb with
  | spawn_callback n => spawnItems n st
  | restore_callback prev => set_messageText prev st
  end.

End Simulation.

(** ** Definitions used to state the properties *)

(** A vector of [NaN]s. *)
Definition nanVector : THREE.Vector3 := THREE.vec3 nan nan nan.

(** The speed clamp of [accelerate], on the velocity alone. *)
Definition clampSpeed (v : THREE.Vector3) : THREE.Vector3 :=
  if JS.gt (THREE.length v) 10 then THREE.setLength v 10 else v.

(** The centre of the arena at the player's height: [(0, playerRadius, 0)]. *)
Definition centre : THREE.Vector3 := THREE.vec3 0 playerRadius 0.

(** How many of [its] the player at [p] touches. *)
Definition itemHits (p : THREE.Vector3) (its : list Mesh) : nat :=
  List.length (filter (itemHit p) its).

(** The timers [k] collections leave behind, when the message read [m]
    before the first: each a respawn after 800 ms and the restoring of the
    message that the [flashMessage] call replaced. *)
Fixpoint collectTimers (m : string) (k : nat) : list (Z * TimerCallback) :=
  match k with
  | O => []
  | S k' =>
      (800%Z, spawn_callback 1) :: (700%Z, restore_callback m)
      :: collectTimers "+10!" k'
  end.

(** The state after [k] collections that leave the items [its]. *)
Definition collected (k : nat) (its : list Mesh) (st : Game) : Game :=
  set_items its
    (set_score (score st + ITEM_REWARD * Z.of_nat k)%Z
       (set_timeouts (timeouts st ++ collectTimers (messageText st) k)
          (set_messageText (match k with O => messageText st | S _ => "+10!" end)
             st))).

(** How many obstacles of [obs] fire, in list order, for a player who
    starts the loop at [p]: a hit moves the player to the centre, and the
    obstacles after it are tested against the centre. *)
Fixpoint obstacleHits (p : THREE.Vector3) (obs : list Obstacle) : nat :=
  match obs with
  | [] => O
  | ob :: rest =>
      if obstacleHit p ob then S (obstacleHits centre rest)
      else obstacleHits p rest
  end.

(** How many obstacles of [obs] are within the collision radius of [p]. *)
Definition obstaclesWithin (p : THREE.Vector3) (obs : list Obstacle) : nat :=
  List.length (filter (obstacleHit p) obs).

(** ** A sample host and sample states, for concrete runs *)

Fixpoint natToFloat (n : nat) : float :=
  match n with
  | O => 0
  | S n' => natToFloat n' + 1
  end.

(** A host for running the game on concrete inputs.  Its clock reads 1000
    ms at the first call and 100 ms more at each further call, and every
    random draw is 0.75.  Its [cos], [sin] and [pow] are constant (their
    values at 0); no property below depends on what they return. *)
Definition sampleHost : Host :=
  mkHost (fun _ => 1) (fun _ => 0) (fun _ _ => 1)
         (fun _ => 0.75)
         (fun n => 1000 + 100 * natToFloat n)
         (fun eye target =>
            THREE.normalize
              (THREE.vec3 (THREE.x target - THREE.x eye)
                          (THREE.y target - THREE.y eye)
                          (THREE.z target - THREE.z eye))).

(** A running game with the player at (10, 0.8, 0), 50 points, and two
    hazards half a unit to either side of the player, both on orbits of
    radius about 10. *)
Definition twoHazardsState : Game :=
  mkGame (THREE.vec3 0 8 12) (THREE.vec3 0 0 (-1))
         (THREE.vec3 10 playerRadius 0) THREE.identity
         []
         [ mkObstacle 9 (THREE.vec3 10 1 0.5) 0 (mkUserData 0 10 1);
           mkObstacle 10 (THREE.vec3 10 1 (-0.5)) 0 (mkUserData 0 10 1) ]
         (fun _ => false) THREE.origin 50%Z true (JS.Num 0) 0
         "Go! Collect cubes!" [] [] 1 0 0 11.

(** The hazard trajectory in the words of the specification:
    x = cos(t·speed + phase) × orbitRadius,
    y = baseHeight + sin(t·speed + phase×0.3) × bobAmplitude,
    z = sin(t·speed + phase) × orbitRadius. *)
Definition baseHeight : float := 1.
Definition bobAmplitude : float := 0.5.

Definition closedForm (host : Host) (ud : UserData) (t : float) : THREE.Vector3 :=
  THREE.vec3 (Math_cos host (t * speed ud + phase ud) * radius ud)
             (baseHeight + Math_sin host (t * speed ud + phase ud * 0.3) * bobAmplitude)
             (Math_sin host (t * speed ud + phase ud) * radius ud).

(** Run one animation frame per timestamp. *)
Fixpoint runFrames (host : Host) (timestamps : list float) (st : Game)
    : option Game :=
  match timestamps with
  | [] => Some st
  | ts :: rest =>
      match runFrame host ts st with
      | None => None
      | Some st' => runFrames host rest st'
      end
  end.

(** A game at rest: the camera at its baseline (0, 8, 12), nothing pending. *)
Definition restingState : Game :=
  mkGame (THREE.vec3 0 8 12) (THREE.vec3 0 0 (-1))
         (THREE.vec3 0 playerRadius 0) THREE.identity
         [] [] (fun _ => false) THREE.origin 0%Z false (JS.Num 0) 0
         "" [] [] 1 0 0 0.

(** The fraction of a shake's duration that has passed at the next clock
    reading: [(performance.now() - start) / ms]. *)
Definition elapsedFraction (host : Host) (start ms : float) (st : Game) : float :=
  (performance_now host (perfReads st) - start) / ms.

(** The state in which [startGame] calls [animate()], for a game that had
    not started: everything [startGame] does before that call. *)
Definition startedState (host : Host) (st : Game) : Game :=
  let st := set_started true st in
  let st := set_score 0%Z st in
  let st := set_messageText "Go! Collect cubes!" st in
  let st := set_player_position (THREE.vec3 0 playerRadius 0) st in
  let st := set_velocity (THREE.vec3 0 0 0) st in
  let st := if Nat.ltb (List.length (items st)) ITEM_COUNT
            then spawnItems host (ITEM_COUNT - List.length (items st)) st
            else st in
  let (t, st) := now host st in
  set_lastTime (JS.Num t) st.

(** A running game whose camera looks straight down: the ground-plane
    projection of its direction has length zero.  The W and D keys are held. *)
Definition lookingDownState : Game :=
  mkGame (THREE.vec3 0 8 0) (THREE.vec3 0 (-1) (-0))
         (THREE.vec3 3 playerRadius 4) THREE.identity
         [] []
         (fun c => String.eqb c "KeyW" || String.eqb c "KeyD")
         (THREE.vec3 1 0 2) 0%Z true (JS.Num 0) 0
         "" [] [] 1 0 0 0.

(** A number that is a zero or [NaN]: what a zero stays under
    multiplication by any number and under addition of its like. *)
Definition zeroOrNaN (a : float) : bool := (a =? 0) || is_nan a.

Definition SFzeroOrNaN (f : spec_float) : bool :=
  match f with
  | S754_zero _ | S754_nan => true
  | _ => false
  end.

(** A running game with the player at the centre, 15 points, one pickup
    under the player and one far away, and two hazards within reach of the
    centre. *)
Definition crowdedCentreState : Game :=
  mkGame (THREE.vec3 0 8 12) (THREE.vec3 0 0 (-1))
         centre THREE.identity
         [ mkMesh 5 (THREE.vec3 0 0.6 0); mkMesh 6 (THREE.vec3 12 0.6 (-3)) ]
         [ mkObstacle 9 (THREE.vec3 1 1 0) 0 (mkUserData 0 1 1);
           mkObstacle 10 (THREE.vec3 (-1) 1 0) 0 (mkUserData 3 1 1) ]
         (fun _ => false) THREE.origin 15%Z true (JS.Num 0) 0
         "Go! Collect cubes!" [] [] 1 0 0 11.

From Stdlib Require Import Permutation.

(** ** Touch controls *)

(** One on-screen button as [bind(btn, code)] sets it up: the key code it
    drives and the [active] flag its two handlers share. *)
Record Button : Type := mkButton {
  button_code : string;
  active : bool
}.

(** [bind(btn, code)]: [let active = false]. *)
Definition bind (code : string) : Button := mkButton code false.

(** [start]: touchstart and mousedown. *)
Definition bindStart (b : Button) (st : Game) : Button * Game :=
  let st := setKey (button_code b) true st in
  (mkButton (button_code b) true, st).

(** [end]: touchend, mouseup and mouseleave. *)
Definition bindEnd (b : Button) (st : Game) : Button * Game :=
  let st := if active b then setKey (button_code b) false st else st in
  (mkButton (button_code b) false, st).

(** ** What happens to a page: frames, timers, keys and clicks *)

Inductive Event : Type :=
| frame_event (timestamp : float)
| timer_event (i : nat)              (* the i-th pending timer fires *)
| keydown_event (code : string)
| keyup_event (code : string)
| start_click.

(** The [i]-th pending timer fires and is gone; no such timer, no change. *)
Definition fireTimer (host : Host) (i : nat) (st : Game) : Game :=
  match nth_error (timeouts st) i with
  | None => st
  | Some t => runTimerCallback host (snd t) (set_timeouts (splice1 i (timeouts st)) st)
  end.

Definition handleEvent (host : Host) (e : Event) (st : Game) : option Game :=
  match e with
  | frame_event ts => runFrame host ts st
  | timer_event i => Some (fireTimer host i st)
  | keydown_event c => Some (keydown c st)
  | keyup_event c => Some (keyup c st)
  | start_click => startGame host st
  end.

Fixpoint handleEvents (host : Host) (es : list Event) (st : Game) : option Game :=
  match es with
  | [] => Some st
  | e :: rest =>
      match handleEvent host e st with
      | None => None
      | Some st' => handleEvents host rest st'
      end
  end.

(** ** More definitions used to state properties *)

(** The point [randomPoint(rad)] returns when the next random draw is the
    [k]-th. *)
Definition pointAt (host : Host) (rad : float) (k : nat) : THREE.Vector3 :=
  let r := JS.Math_sqrt (Math_random host k) * rad in
  let t := Math_random host (S k) * JS.Math_PI * 2 in
  THREE.vec3 (Math_cos host t * r) 0 (Math_sin host t * r).

(** The [i]-th mesh a [spawnItems] call makes, when it starts with mesh id
    [id] and random draw [k]. *)
Definition spawnedItem (host : Host) (id k i : nat) : Mesh :=
  let pos := pointAt host (WORLD_RADIUS * 0.6) (k + 2 * i) in
  mkMesh (id + i) (THREE.vec3 (THREE.x pos) 0.6 (THREE.z pos)).




Definition isAnimate (r : nat * FrameCallback) : bool :=
  match snd r with
  | animate_callback => true
  | tick_callback _ _ _ _ => false
  end.

(** How many [animate] and how many [tick] callbacks are requested. *)
Definition pendingAnimates (st : Game) : nat :=
  List.length (filter isAnimate (frameRequests st)).

Definition pendingTicks (st : Game) : nat :=
  List.length (filter (fun r => negb (isAnimate r)) (frameRequests st)).

(** The bookkeeping of the frame requests: handles are distinct and below
    the next one, [shakeTimeout] is an old handle too, and the pending ticks
    are exactly the requests under the handle [shakeTimeout]. *)
Definition requestsTidy (st : Game) : Prop :=
  NoDup (map fst (frameRequests st))
  /\ Forall (fun r => fst r < nextHandle st)%nat (frameRequests st)
  /\ (shakeTimeout st < nextHandle st)%nat
  /\ Forall (fun r => isAnimate r = negb (Nat.eqb (fst r) (shakeTimeout st)))
            (frameRequests st).

(** A running game whose loop is alive: one [animate] is requested. *)
Definition loopAlive (st : Game) : Prop :=
  started st = true /\ requestsTidy st /\ pendingAnimates st = 1%nat.

(** The score is a non-negative multiple of 10. *)
Definition scoreValid (s : Z) : Prop := (0 <= s /\ (10 | s))%Z.

(** Every coordinate is a number, and not an infinity. *)
Definition finiteVector (v : THREE.Vector3) : bool :=
  is_finite (THREE.x v) && is_finite (THREE.y v) && is_finite (THREE.z v).

(** Where the player of a broken game is: [NaN] in both horizontal
    coordinates. *)
Definition nowhere : THREE.Vector3 := THREE.vec3 nan playerRadius nan.

(** The game after a [NaN] step got into its velocity: it runs, and the
    player is nowhere. *)
Definition lostInNaN (st : Game) : Prop :=
  started st = true
  /\ velocity st = nanVector
  /\ player_position st = nowhere.

(** What identifies a hazard for the whole session: its id and its orbit
    parameters. *)
Definition hazardParameters (st : Game) : list (nat * UserData) :=
  map (fun ob => (ob_id ob, userData ob)) (obstacles st).

(** A running game with one [animate] requested, the player at (10, 0.8, 0)
    and two hazards within reach. *)
Definition runningState : Game :=
  set_frameRequests [(1%nat, animate_callback)] (set_nextHandle 2 twoHazardsState).

(** The second half of [animate]: the two collision checks, the camera
    update and the request of the next frame, on the state [st] that the
    motion and hazard updates left. *)
Definition frameTail (host : Host) (st : Game) : option Game :=
  match checkItemCollisions st with
  | None => None
  | Some st3 =>
      Some (snd (requestAnimationFrame animate_callback
                   (updateCamera host (checkObstacleCollisions host st3))))
  end.

(** What one axis of the input reads when the key of its negative direction
    and the key of its positive direction are held or not. *)
Definition axis (negative positive : bool) : float :=
  match negative, positive with
  | true, false => -1
  | false, true => 1
  | _, _ => 0
  end.

(** Zeros and finite numbers, read off the specification of a float. *)
Definition SFisZero (f : spec_float) : bool :=
  match f with
  | S754_zero _ => true
  | _ => false
  end.

Definition SFisFinite (f : spec_float) : bool :=
  match f with
  | S754_zero _ | S754_finite _ _ _ => true
  | _ => false
  end.

(** * Facts about binary64 arithmetic

    The kernel computes with closed floats; facts about every float come
    from the specification of the primitive operations ([FloatAxioms]). *)

Module FloatFacts.

Lemma SF_nan : Prim2SF nan = S754_nan.
Proof. reflexivity. Qed.

Lemma mul_nan_r (a : float) : a * nan = nan.
Proof.
  apply Prim2SF_inj. rewrite mul_spec, SF_nan.
  destruct (Prim2SF a); reflexivity.
Qed.

Lemma mul_nan_l (a : float) : nan * a = nan.
Proof.
  apply Prim2SF_inj. rewrite mul_spec, SF_nan. reflexivity.
Qed.

Lemma add_nan_r (a : float) : a + nan = nan.
Proof.
  apply Prim2SF_inj. rewrite add_spec, SF_nan.
  destruct (Prim2SF a); reflexivity.
Qed.

Lemma add_nan_l (a : float) : nan + a = nan.
Proof.
  apply Prim2SF_inj. rewrite add_spec, SF_nan. reflexivity.
Qed.

Lemma sub_nan_l (a : float) : nan - a = nan.
Proof.
  apply Prim2SF_inj. rewrite sub_spec, SF_nan. reflexivity.
Qed.

Lemma sub_nan_r (a : float) : a - nan = nan.
Proof.
  apply Prim2SF_inj. rewrite sub_spec, SF_nan.
  destruct (Prim2SF a); reflexivity.
Qed.

Lemma div_nan_l (a : float) : nan / a = nan.
Proof.
  apply Prim2SF_inj. rewrite div_spec, SF_nan. reflexivity.
Qed.

Lemma ltb_nan_l (a : float) : (nan <? a) = false.
Proof. rewrite ltb_spec, SF_nan. reflexivity. Qed.

Lemma ltb_nan_r (a : float) : (a <? nan) = false.
Proof. rewrite ltb_spec, SF_nan. destruct (Prim2SF a); reflexivity. Qed.

Lemma leb_nan_r (a : float) : (a <=? nan) = false.
Proof. rewrite leb_spec, SF_nan. destruct (Prim2SF a); reflexivity. Qed.

Lemma is_nan_spec (a : float) : is_nan a = true -> a = nan.
Proof.
  unfold is_nan. rewrite FloatAxioms.eqb_spec. intros H.
  apply Prim2SF_inj. rewrite SF_nan.
  destruct (Prim2SF a) as [s| s| |s m e]; try reflexivity.
  - discriminate H.
  - destruct s; discriminate H.
  - unfold SFeqb, SFcompare in H.
    rewrite Z.compare_refl in H.
    assert (Pos.compare_cont Eq m m = Eq) by (apply Pos.compare_cont_refl).
    destruct s; rewrite H0 in H; discriminate H.
Qed.

(** The two zeros are the only floats equal to zero. *)
Lemma eqb_zero (a : float) : (a =? 0) = true -> a = 0 \/ a = (-0).
Proof.
  rewrite FloatAxioms.eqb_spec. change (Prim2SF 0) with (S754_zero false).
  intros H.
  destruct (Prim2SF a) as [s| s| |s m e] eqn:E.
  - destruct s; [right|left]; apply Prim2SF_inj; rewrite E; reflexivity.
  - destruct s; discriminate H.
  - discriminate H.
  - destruct s; discriminate H.
Qed.

(** A float at most zero is below 0.05 and is a number. *)
Lemma nonpositive_below (q : float) :
  (q <=? 0) = true -> (0.05 <? q) = false /\ is_nan q = false.
Proof.
  unfold is_nan. rewrite leb_spec, ltb_spec, FloatAxioms.eqb_spec.
  change (Prim2SF 0) with (S754_zero false).
  change (Prim2SF 0.05) with (S754_finite false 7205759403792794 (-57)).
  destruct (Prim2SF q) as [s| s| |s m e]; intros H.
  - split; reflexivity.
  - destruct s; [split; reflexivity | discriminate H].
  - discriminate H.
  - destruct s; [| discriminate H]. split; [reflexivity|].
    unfold SFeqb, SFcompare. rewrite Z.compare_refl.
    rewrite Pos.compare_cont_refl. reflexivity.
Qed.

Lemma SFeqb_refl_finite (s : bool) (m : positive) (e : Z) :
  SFeqb (S754_finite s m e) (S754_finite s m e) = true.
Proof.
  unfold SFeqb, SFcompare. rewrite Z.compare_refl, Pos.compare_cont_refl.
  destruct s; reflexivity.
Qed.

Lemma zeroOrNaN_spec (a : float) : zeroOrNaN a = SFzeroOrNaN (Prim2SF a).
Proof.
  unfold zeroOrNaN, is_nan. rewrite !FloatAxioms.eqb_spec.
  change (Prim2SF 0) with (S754_zero false).
  destruct (Prim2SF a) as [s| s| |s m e].
  - reflexivity.
  - destruct s; reflexivity.
  - reflexivity.
  - rewrite SFeqb_refl_finite. destruct s; reflexivity.
Qed.

Lemma zeroOrNaN_mul_l (a b : float) :
  zeroOrNaN a = true -> zeroOrNaN (a * b) = true.
Proof.
  rewrite !zeroOrNaN_spec, mul_spec.
  destruct (Prim2SF a), (Prim2SF b); intros H; try discriminate H; reflexivity.
Qed.

Lemma zeroOrNaN_add (a b : float) :
  zeroOrNaN a = true -> zeroOrNaN b = true -> zeroOrNaN (a + b) = true.
Proof.
  rewrite !zeroOrNaN_spec, add_spec.
  destruct (Prim2SF a) as [[|]| | |], (Prim2SF b) as [[|]| | |];
    intros Ha Hb; try discriminate Ha; try discriminate Hb; reflexivity.
Qed.

Lemma zeroOrNaN_sub (a b : float) :
  zeroOrNaN a = true -> zeroOrNaN b = true -> zeroOrNaN (a - b) = true.
Proof.
  rewrite !zeroOrNaN_spec, sub_spec.
  destruct (Prim2SF a) as [[|]| | |], (Prim2SF b) as [[|]| | |];
    intros Ha Hb; try discriminate Ha; try discriminate Hb; reflexivity.
Qed.

End FloatFacts.

(** ** [Math.min] against the cap *)

(** [Math.min(0.05, q)] is [NaN] for [NaN], the cap above the cap, and [q]
    itself otherwise. *)
Lemma Math_min_cap (q : float) :
  JS.Math_min 0.05 q = if is_nan q then nan else if 0.05 <? q then 0.05 else q.
Proof.
  unfold JS.Math_min.
  change (is_nan 0.05) with false. cbn [orb].
  destruct (is_nan q); [reflexivity|].
  destruct (0.05 <? q); [reflexivity|].
  destruct (q <? 0.05); [reflexivity|].
  change (get_sign 0.05) with false. reflexivity.
Qed.

Lemma Math_min_nan (a : float) : JS.Math_min a nan = nan.
Proof.
  unfold JS.Math_min. change (is_nan nan) with true.
  rewrite orb_true_r. reflexivity.
Qed.

(** ** Vectors with [NaN] coordinates *)

Lemma length_nanVector : THREE.length nanVector = nan.
Proof. reflexivity. Qed.

Lemma addScaledVector_nan (v w : THREE.Vector3) :
  THREE.addScaledVector v w nan = nanVector.
Proof.
  unfold THREE.addScaledVector, nanVector.
  rewrite !FloatFacts.mul_nan_r, !FloatFacts.add_nan_r. reflexivity.
Qed.

Lemma multiplyScalar_nanVector (s : float) :
  THREE.multiplyScalar nanVector s = nanVector.
Proof.
  unfold THREE.multiplyScalar, nanVector. cbn [THREE.x THREE.y THREE.z].
  rewrite !FloatFacts.mul_nan_l. reflexivity.
Qed.

(** No point is within a positive distance of a point whose [x] is [NaN]. *)
Lemma distanceToSquared_nan (p q : THREE.Vector3) :
  THREE.x p = nan -> THREE.distanceToSquared p q = nan.
Proof.
  intros H. unfold THREE.distanceToSquared. rewrite H. cbv zeta.
  rewrite FloatFacts.sub_nan_l, FloatFacts.mul_nan_l, !FloatFacts.add_nan_l.
  reflexivity.
Qed.

(** * The motion update *)

Section MotionFacts.

Variable host : Host.

Lemma accelerate_eq (dt : float) (st : Game) :
  accelerate host dt st =
  set_velocity
    (clampSpeed
       (THREE.multiplyScalar
          (THREE.addScaledVector (velocity st) (forceOf st) dt)
          (Math_pow host 0.8 (dt * 10)))) st.
Proof.
  unfold accelerate, clampSpeed. cbn [velocity set_velocity].
  destruct (JS.gt _ _); reflexivity.
Qed.

Lemma roll_eq (dt : float) (st : Game) :
  roll host dt st = set_player_quaternion (player_quaternion (roll host dt st)) st.
Proof.
  unfold roll. destruct (JS.gt _ _); destruct st; reflexivity.
Qed.

Lemma roll_player_position (dt : float) (st : Game) :
  player_position (roll host dt st) = player_position st.
Proof. rewrite roll_eq. reflexivity. Qed.

Lemma roll_velocity (dt : float) (st : Game) :
  velocity (roll host dt st) = velocity st.
Proof. rewrite roll_eq. reflexivity. Qed.

Lemma contain_y (st : Game) :
  THREE.y (player_position (contain st)) = THREE.y (player_position st).
Proof. unfold contain. destruct (JS.gt _ _); reflexivity. Qed.

Lemma move_y (dt : float) (st : Game) :
  THREE.y (player_position (move dt st)) = playerRadius.
Proof. reflexivity. Qed.

(** C6. After [updatePlayer] returns, [player.position.y] is exactly
    [playerRadius], for every step [dt] (in particular every [dt >= 0]),
    every set of pressed keys and every camera heading. *)
Theorem updatePlayer_pins_height (dt : float) (st : Game) :
  THREE.y (player_position (updatePlayer host dt st)) = playerRadius.
Proof.
  unfold updatePlayer.
  rewrite roll_player_position, contain_y.
  apply move_y.
Qed.


(** ** A [NaN] step *)

Lemma accelerate_nan (st : Game) :
  accelerate host nan st = set_velocity nanVector st.
Proof.
  rewrite accelerate_eq.
  rewrite addScaledVector_nan, multiplyScalar_nanVector.
  reflexivity.
Qed.

Lemma move_nan (st : Game) :
  velocity st = nanVector ->
  move nan st = set_player_position (THREE.vec3 nan playerRadius nan) st.
Proof.
  intros Hv. unfold move. rewrite Hv, addScaledVector_nan. reflexivity.
Qed.

Lemma contain_nan (st : Game) :
  player_position st = THREE.vec3 nan playerRadius nan -> contain st = st.
Proof.
  intros Hp. unfold contain. rewrite Hp. reflexivity.
Qed.

Lemma roll_nan (st : Game) : roll host nan st = st.
Proof.
  unfold roll. rewrite FloatFacts.mul_nan_r. reflexivity.
Qed.

(** With a [NaN] step the velocity becomes [NaN] in every coordinate,
    the vertical one included, and the position in both horizontal ones. *)
Lemma updatePlayer_nan (st : Game) :
  updatePlayer host nan st =
  set_player_position (THREE.vec3 nan playerRadius nan) (set_velocity nanVector st).
Proof.
  unfold updatePlayer.
  rewrite roll_nan, accelerate_nan.
  rewrite move_nan by reflexivity.
  apply contain_nan. reflexivity.
Qed.


(** ** Normalizing a vector of length zero *)

(** [normalize] never divides by zero or by [NaN]: a falsy length is
    replaced by 1. *)
Lemma normalizeDivisor_nonzero (v : THREE.Vector3) :
  (THREE.normalizeDivisor v =? 0) = false
  /\ is_nan (THREE.normalizeDivisor v) = false.
Proof.
  unfold THREE.normalizeDivisor, JS.or, JS.truthy.
  destruct (THREE.length v =? 0) eqn:Hz; cbn [orb negb].
  - split; reflexivity.
  - destruct (is_nan (THREE.length v)) eqn:Hn; cbn [negb].
    + split; reflexivity.
    + split; assumption.
Qed.

(** A vector whose coordinates are zeros is its own normalization. *)
Lemma normalize_zero (v : THREE.Vector3) :
  THREE.isZero v = true -> THREE.normalize v = v.
Proof.
  destruct v as [a b c]. unfold THREE.isZero, THREE.eqb.
  cbn [THREE.x THREE.y THREE.z THREE.origin].
  intros H. apply andb_prop in H. destruct H as [H Hc].
  apply andb_prop in H. destruct H as [Ha Hb].
  destruct (FloatFacts.eqb_zero a Ha) as [-> | ->];
    destruct (FloatFacts.eqb_zero b Hb) as [-> | ->];
    destruct (FloatFacts.eqb_zero c Hc) as [-> | ->];
    reflexivity.
Qed.

(** A length that computes to zero makes [normalize] scale by [1 / 1]. *)
Lemma normalize_falsy_length (v : THREE.Vector3) :
  (THREE.length v =? 0) = true -> THREE.normalize v = THREE.multiplyScalar v 1.
Proof.
  intros H. unfold THREE.normalize, THREE.divideScalar, THREE.normalizeDivisor.
  unfold JS.or, JS.truthy. rewrite H. reflexivity.
Qed.

(** C8. [normalize] divides by [length() || 1], which is never zero and
    never [NaN], for every vector.  When the ground-plane projection of the
    camera direction has length zero, [forward], the [right] derived from it
    and the steering force are zero vectors, whatever keys are held; they
    hold no [NaN].  [updatePlayer] then returns, as it does for every step,
    input and heading, with the player at height [playerRadius]. *)
Theorem updatePlayer_zero_heading (dt : float) (st : Game) :
  (THREE.x (camera_direction st) =? 0) = true ->
  (THREE.z (camera_direction st) =? 0) = true ->
  (forall v : THREE.Vector3,
      (THREE.normalizeDivisor v =? 0) = false
      /\ is_nan (THREE.normalizeDivisor v) = false)
  /\ (forall v : THREE.Vector3, THREE.isZero v = true -> THREE.normalize v = v)
  /\ THREE.isZero (forwardOf st) = true
  /\ THREE.isZero (rightOf (forwardOf st)) = true
  /\ THREE.isZero (forceOf st) = true
  /\ THREE.hasNaN (forceOf st) = false
  /\ exists st' : Game,
       updatePlayer host dt st = st'
       /\ THREE.y (player_position st') = playerRadius
       /\ velocity st' =
          velocity (roll host dt (contain (move dt
            (set_velocity
               (clampSpeed
                  (THREE.multiplyScalar
                     (THREE.addScaledVector (velocity st) (forceOf st) dt)
                     (Math_pow host 0.8 (dt * 10)))) st)))).
Proof.
  intros Hx Hz.
  split; [exact normalizeDivisor_nonzero|].
  split; [exact normalize_zero|].
  assert (Hdir : THREE.isZero (forwardOf st) = true
                 /\ THREE.isZero (rightOf (forwardOf st)) = true
                 /\ THREE.isZero (forceOf st) = true
                 /\ THREE.hasNaN (forceOf st) = false).
  { unfold forceOf, input, forwardOf.
    destruct (camera_direction st) as [dx dy dz].
    cbn [THREE.x THREE.z] in Hx, Hz.
    cbn [THREE.setY THREE.x THREE.z].
    destruct (pressed st "KeyW" "ArrowUp"), (pressed st "KeyS" "ArrowDown"),
      (pressed st "KeyA" "ArrowLeft"), (pressed st "KeyD" "ArrowRight");
      destruct (FloatFacts.eqb_zero dx Hx) as [-> | ->];
      destruct (FloatFacts.eqb_zero dz Hz) as [-> | ->];
      vm_compute; repeat split; reflexivity. }
  destruct Hdir as (H1 & H2 & H3 & H4).
  repeat (split; [assumption|]).
  eexists. split; [reflexivity|].
  unfold updatePlayer. split.
  - rewrite roll_player_position, contain_y. apply move_y.
  - rewrite accelerate_eq. reflexivity.
Qed.


(** ** The containment step *)

(** Outside the world radius the two horizontal coordinates are scaled by
    [WORLD_RADIUS / dist] and the velocity by 0.3; the height is kept. *)
Lemma contain_outside (st : Game) :
  let p := player_position st in
  let dist := horizontalDistance p in
  JS.gt dist WORLD_RADIUS = true ->
  player_position (contain st)
  = THREE.vec3 (THREE.x p * (WORLD_RADIUS / dist)) (THREE.y p)
               (THREE.z p * (WORLD_RADIUS / dist))
  /\ velocity (contain st) = THREE.multiplyScalar (velocity st) 0.3.
Proof.
  cbv zeta. intros H. unfold contain. rewrite H. split; reflexivity.
Qed.

Lemma contain_inside (st : Game) :
  JS.gt (horizontalDistance (player_position st)) WORLD_RADIUS = false ->
  contain st = st.
Proof. intros H. unfold contain. rewrite H. reflexivity. Qed.

(** The containment step runs on the position the integration left. *)
Lemma updatePlayer_contains_after_move (dt : float) (st : Game) :
  player_position (updatePlayer host dt st)
  = player_position (contain (move dt (accelerate host dt st)))
  /\ velocity (updatePlayer host dt st)
     = velocity (contain (move dt (accelerate host dt st))).
Proof.
  unfold updatePlayer. rewrite roll_player_position, roll_velocity.
  split; reflexivity.
Qed.

(** A player 50 units out, at (30, 0.8, 40), is put back at (24, 0.8, 32),
    at distance 40. *)
Lemma contain_example :
  let st := set_player_position (THREE.vec3 30 playerRadius 40) lookingDownState in
  player_position (contain st) = THREE.vec3 24 playerRadius 32
  /\ horizontalDistance (player_position (contain st)) = WORLD_RADIUS.
Proof. vm_compute. split; reflexivity. Qed.

(** ** The vertical component of the velocity *)

Lemma zeroOrNaN_y_multiplyScalar (v : THREE.Vector3) (s : float) :
  zeroOrNaN (THREE.y v) = true ->
  zeroOrNaN (THREE.y (THREE.multiplyScalar v s)) = true.
Proof. apply FloatFacts.zeroOrNaN_mul_l. Qed.

Lemma zeroOrNaN_y_normalize (v : THREE.Vector3) :
  zeroOrNaN (THREE.y v) = true ->
  zeroOrNaN (THREE.y (THREE.normalize v)) = true.
Proof. apply zeroOrNaN_y_multiplyScalar. Qed.

Lemma zeroOrNaN_y_addScaledVector (a b : THREE.Vector3) (s : float) :
  zeroOrNaN (THREE.y a) = true ->
  zeroOrNaN (THREE.y b) = true ->
  zeroOrNaN (THREE.y (THREE.addScaledVector a b s)) = true.
Proof.
  intros Ha Hb. cbn [THREE.addScaledVector THREE.y].
  apply FloatFacts.zeroOrNaN_add; [exact Ha|].
  apply FloatFacts.zeroOrNaN_mul_l, Hb.
Qed.

Lemma zeroOrNaN_y_forward (st : Game) :
  zeroOrNaN (THREE.y (forwardOf st)) = true.
Proof. apply zeroOrNaN_y_normalize. reflexivity. Qed.

Lemma zeroOrNaN_y_right (f : THREE.Vector3) :
  zeroOrNaN (THREE.y (rightOf f)) = true.
Proof.
  apply zeroOrNaN_y_normalize. cbn [THREE.crossVectors THREE.y THREE.x THREE.z].
  apply FloatFacts.zeroOrNaN_sub; apply FloatFacts.zeroOrNaN_mul_l; reflexivity.
Qed.

Lemma zeroOrNaN_y_force (st : Game) :
  zeroOrNaN (THREE.y (forceOf st)) = true.
Proof.
  unfold forceOf. destruct (input st) as [inputX inputZ].
  apply zeroOrNaN_y_addScaledVector; [|apply zeroOrNaN_y_right].
  apply zeroOrNaN_y_addScaledVector; [reflexivity | apply zeroOrNaN_y_forward].
Qed.

(** The steering force, the damping, the clamp and the wall only ever
    scale the vertical component of the velocity or add a scaled zero to
    it: a vertical component that is zero stays zero or becomes [NaN], and
    never any other number, whatever the step. *)
Lemma updatePlayer_velocity_y (dt : float) (st : Game) :
  zeroOrNaN (THREE.y (velocity st)) = true ->
  zeroOrNaN (THREE.y (velocity (updatePlayer host dt st))) = true.
Proof.
  intros Hv.
  destruct (updatePlayer_contains_after_move dt st) as [_ ->].
  assert (Ha : zeroOrNaN (THREE.y (velocity (accelerate host dt st))) = true).
  { rewrite accelerate_eq. cbn [velocity set_velocity].
    unfold clampSpeed.
    assert (H2 : zeroOrNaN
                   (THREE.y (THREE.multiplyScalar
                               (THREE.addScaledVector (velocity st) (forceOf st) dt)
                               (Math_pow host 0.8 (dt * 10)))) = true).
    { apply zeroOrNaN_y_multiplyScalar, zeroOrNaN_y_addScaledVector;
        [exact Hv | apply zeroOrNaN_y_force]. }
    destruct (JS.gt _ _); [|exact H2].
    apply zeroOrNaN_y_multiplyScalar, zeroOrNaN_y_normalize, H2. }
  unfold contain.
  destruct (JS.gt _ _); [|exact Ha].
  cbn [velocity set_velocity set_player_position].
  apply zeroOrNaN_y_multiplyScalar. exact Ha.
Qed.

End MotionFacts.
(** * Collisions *)

(** ** Pickups *)

Lemma splice1_firstn {A : Type} (i : nat) (l : list A) :
  i <= List.length l -> firstn i (splice1 i l) = firstn i l.
Proof.
  intros H. unfold splice1.
  rewrite firstn_app, firstn_firstn, Nat.min_id.
  rewrite length_firstn, Nat.min_l by exact H.
  rewrite Nat.sub_diag. cbn [firstn]. apply app_nil_r.
Qed.

Lemma splice1_skipn {A : Type} (i : nat) (l : list A) :
  i <= List.length l -> skipn i (splice1 i l) = skipn (S i) l.
Proof.
  intros H. unfold splice1.
  rewrite skipn_app.
  rewrite length_firstn, Nat.min_l by exact H.
  rewrite Nat.sub_diag. cbn [skipn].
  rewrite skipn_all2; [reflexivity|].
  rewrite length_firstn. apply Nat.le_min_l.
Qed.

Lemma splice1_length {A : Type} (i : nat) (l : list A) :
  i < List.length l -> List.length (splice1 i l) = pred (List.length l).
Proof.
  intros H. unfold splice1.
  rewrite length_app, length_firstn, length_skipn. lia.
Qed.

Lemma firstn_S_nth {A : Type} (i : nat) (l : list A) (a : A) :
  nth_error l i = Some a -> firstn (S i) l = firstn i l ++ [a].
Proof.
  revert l. induction i as [|i IH]; intros [|b l] H; try discriminate H.
  - injection H as ->. reflexivity.
  - cbn [nth_error] in H. specialize (IH l H).
    change (b :: firstn (S i) l = (b :: firstn i l) ++ [a]).
    rewrite IH. reflexivity.
Qed.

Lemma skipn_nth {A : Type} (i : nat) (l : list A) (a : A) :
  nth_error l i = Some a -> skipn i l = a :: skipn (S i) l.
Proof.
  revert l. induction i as [|i IH]; intros [|b l] H; try discriminate H.
  - injection H as ->. reflexivity.
  - cbn [nth_error] in H. cbn [skipn]. apply (IH l H).
Qed.

(** One more collection on top of [k]. *)
Lemma collected_collect (k i : nat) (its : list Mesh) (st : Game) :
  collected k its (collect i st) = collected (S k) its st.
Proof.
  unfold collected, collect, flashMessage, setTimeout.
  cbn -[Z.of_nat Z.mul Z.add].
  unfold set_items. cbn -[Z.of_nat Z.mul Z.add].
  f_equal.
  - unfold ITEM_REWARD. lia.
  - destruct k; reflexivity.
  - rewrite <- !app_assoc. reflexivity.
Qed.

Lemma collected_zero (st : Game) : collected 0 (items st) st = st.
Proof.
  unfold collected. cbn -[Z.add]. destruct st. cbn.
  rewrite Z.add_0_r, app_nil_r. reflexivity.
Qed.

Lemma collect_player_position (i : nat) (st : Game) :
  player_position (collect i st) = player_position st.
Proof. reflexivity. Qed.

Lemma collect_items (i : nat) (st : Game) :
  items (collect i st) = splice1 i (items st).
Proof. reflexivity. Qed.

Lemma collected_items (k : nat) (its : list Mesh) (st : Game) :
  items (collected k its st) = its.
Proof. reflexivity. Qed.

Lemma itemHits_snoc (p : THREE.Vector3) (l : list Mesh) (it : Mesh) :
  itemHits p (l ++ [it]) =
  if itemHit p it then S (itemHits p l) else itemHits p l.
Proof.
  unfold itemHits. rewrite filter_app, length_app. cbn [filter].
  destruct (itemHit p it); cbn [List.length]; lia.
Qed.

(** The loop from index [n - 1] down to 0 never reads past the end, and
    leaves the items below [n] that the player does not touch, followed by
    the items from [n] on. *)
Lemma checkItemsFrom_spec (n : nat) :
  forall st : Game,
    n <= List.length (items st) ->
    checkItemsFrom n st =
    Some (collected
            (itemHits (player_position st) (firstn n (items st)))
            (filter (fun it => negb (itemHit (player_position st) it))
                    (firstn n (items st))
             ++ skipn n (items st))
            st).
Proof.
  induction n as [|i IH]; intros st Hn.
  - cbn [checkItemsFrom firstn skipn filter itemHits List.length app].
    rewrite collected_zero. reflexivity.
  - cbn [checkItemsFrom].
    destruct (nth_error (items st) i) as [it|] eqn:Hit.
    2:{ apply nth_error_None in Hit. lia. }
    rewrite (firstn_S_nth _ _ _ Hit), filter_app, itemHits_snoc.
    cbn [filter].
    destruct (itemHit (player_position st) it) eqn:Hhit; cbn [negb].
    + rewrite IH.
      2:{ rewrite collect_items, splice1_length by lia. lia. }
      rewrite collect_player_position, collect_items.
      rewrite splice1_firstn, splice1_skipn by lia.
      rewrite collected_collect, app_nil_r. reflexivity.
    + rewrite IH by lia.
      rewrite (skipn_nth _ _ _ Hit), <- app_assoc. reflexivity.
Qed.

(** C3. [checkItemCollisions] tests every pickup against the player (the
    result is the filter of the whole list, so none is skipped and none
    ends the loop) and never reads past the end of the array although it
    removes in place.  Exactly the touched pickups are removed (the others
    stay, in order), the score grows by 10 for each, and each removal only
    leaves a timer of 800 ms that will spawn one pickup: no pickup that was
    not there before is in the list when the call returns. *)
Theorem checkItemCollisions_collects (st : Game) :
  exists st' : Game,
    checkItemCollisions st = Some st'
    /\ items st' =
       filter (fun it => negb (itemHit (player_position st) it)) (items st)
    /\ score st' =
       (score st + 10 * Z.of_nat (itemHits (player_position st) (items st)))%Z
    /\ timeouts st' =
       timeouts st
       ++ collectTimers (messageText st) (itemHits (player_position st) (items st))
    /\ (forall it, In it (items st') -> In it (items st))
    /\ (List.length (items st') + itemHits (player_position st) (items st)
        = List.length (items st))%nat
    /\ player_position st' = player_position st
    /\ velocity st' = velocity st
    /\ obstacles st' = obstacles st.
Proof.
  unfold checkItemCollisions.
  rewrite checkItemsFrom_spec by lia.
  rewrite firstn_all, skipn_all, app_nil_r.
  eexists. split; [reflexivity|].
  rewrite collected_items.
  repeat split.
  - intros it Hin. apply filter_In in Hin. tauto.
  - unfold itemHits.
    induction (items st) as [|a l IHl]; [reflexivity|].
    cbn [filter]. destruct (itemHit (player_position st) a); cbn [negb List.length]; lia.
Qed.

(** The timers of [k] collections hold exactly [k] respawns, each of one
    pickup after 800 ms, and nothing that fires at once. *)
Lemma collectTimers_spawns (m : string) (k : nat) :
  List.length (filter (fun t => match snd t with spawn_callback _ => true | _ => false end)
                 (collectTimers m k)) = k
  /\ Forall (fun t => match snd t with
                      | spawn_callback n => n = 1%nat /\ fst t = 800%Z
                      | restore_callback _ => fst t = 700%Z
                      end) (collectTimers m k).
Proof.
  revert m. induction k as [|k IH]; intros m; cbn; split; auto.
  - f_equal. apply IH.
  - repeat constructor. apply IH.
Qed.

(** ** Hazards *)

Section HazardFacts.

Variable host : Host.

(** The camera shake touches the camera, the frame requests, the handle
    and the oracles' counters, and nothing else. *)
Lemma tick_frame (start : float) (orig : THREE.Vector3) (amount ms : float)
    (st : Game) :
  let st' := tick host start orig amount ms st in
  player_position st' = player_position st
  /\ velocity st' = velocity st
  /\ score st' = score st
  /\ obstacles st' = obstacles st
  /\ items st' = items st
  /\ timeouts st' = timeouts st
  /\ messageText st' = messageText st.
Proof.
  unfold tick, now. cbn -[JS.ge].
  destruct (JS.ge _ _); repeat split; reflexivity.
Qed.

Lemma shakeCamera_frame (amount ms : float) (st : Game) :
  let st' := shakeCamera host amount ms st in
  player_position st' = player_position st
  /\ velocity st' = velocity st
  /\ score st' = score st
  /\ obstacles st' = obstacles st
  /\ items st' = items st
  /\ timeouts st' = timeouts st
  /\ messageText st' = messageText st.
Proof.
  unfold shakeCamera, now. cbv zeta.
  match goal with
  | |- context [tick host ?s ?o ?a ?m ?st0] =>
      destruct (tick_frame s o a m st0) as (H1 & H2 & H3 & H4 & H5 & H6 & H7)
  end.
  rewrite H1, H2, H3, H4, H5, H6, H7. repeat split; reflexivity.
Qed.

(** One hit: the player is at the centre, at rest, and the score is
    reduced by 20, but not below 0. *)
Lemma penalize_spec (st : Game) :
  player_position (penalize host st) = centre
  /\ velocity (penalize host st) = THREE.vec3 0 0 0
  /\ score (penalize host st) = Z.max 0 (score st - 20)
  /\ obstacles (penalize host st) = obstacles st
  /\ items (penalize host st) = items st.
Proof.
  unfold penalize. cbv zeta.
  match goal with
  | |- context [shakeCamera host ?a ?m ?st0] =>
      destruct (shakeCamera_frame a m st0) as (H1 & H2 & H3 & H4 & H5 & _)
  end.
  rewrite H1, H2, H3, H4, H5. repeat split; reflexivity.
Qed.

(** [k] penalties in a row. *)
Lemma penalties_closed_form (k : nat) (s : Z) :
  Nat.iter k (fun s => Z.max 0 (s - 20)%Z) s =
  match k with
  | O => s
  | S _ => Z.max 0 (s - 20 * Z.of_nat k)
  end.
Proof.
  induction k as [|k IH]; [reflexivity|].
  rewrite Nat.iter_succ, IH.
  destruct k as [|k]; [f_equal; lia|]. lia.
Qed.

Lemma checkObstaclesIn_spec (obs : list Obstacle) :
  forall st : Game,
    let k := obstacleHits (player_position st) obs in
    let st' := checkObstaclesIn host obs st in
    score st' = Nat.iter k (fun s => Z.max 0 (s - 20)%Z) (score st)
    /\ player_position st' = match k with O => player_position st | S _ => centre end
    /\ velocity st' = match k with O => velocity st | S _ => THREE.vec3 0 0 0 end
    /\ obstacles st' = obstacles st
    /\ items st' = items st.
Proof.
  induction obs as [|ob rest IH]; intros st.
  - cbn. repeat split; reflexivity.
  - cbn [checkObstaclesIn obstacleHits].
    destruct (obstacleHit (player_position st) ob) eqn:Hhit.
    + destruct (penalize_spec st) as (Hp & Hv & Hs & Ho & Hi).
      specialize (IH (penalize host st)). cbv zeta in IH.
      rewrite Hp, Hv, Hs, Ho, Hi in IH.
      destruct IH as (IH1 & IH2 & IH3 & IH4 & IH5).
      cbv zeta. rewrite IH1, IH2, IH3, IH4, IH5.
      repeat split.
      * rewrite Nat.iter_succ_r. reflexivity.
      * destruct (obstacleHits centre rest); reflexivity.
      * destruct (obstacleHits centre rest); reflexivity.
    + apply IH.
Qed.


Lemma obstacleHits_centre (obs : list Obstacle) :
  obstacleHits centre obs = obstaclesWithin centre obs.
Proof.
  unfold obstaclesWithin.
  induction obs as [|ob rest IH]; [reflexivity|].
  cbn [obstacleHits filter].
  destruct (obstacleHit centre ob); cbn [List.length]; rewrite IH; reflexivity.
Qed.

Lemma obstacleHits_none (p : THREE.Vector3) (obs : list Obstacle) :
  Nat.eqb (obstacleHits p obs) 0 = Nat.eqb (obstaclesWithin p obs) 0.
Proof.
  unfold obstaclesWithin.
  induction obs as [|ob rest IH]; [reflexivity|].
  cbn [obstacleHits filter].
  destruct (obstacleHit p ob); [reflexivity | exact IH].
Qed.

(** C2, as the code has it.  The hazards are tested in list order against
    the position the player has when each test runs.  A hazard whose test
    succeeds puts the player at exactly (0, playerRadius, 0), zeroes the
    velocity and sets the score to max(0, score - 20); the hazards after it
    are then tested against the centre, not against the position the player
    had when the frame began.  So a penalty is applied if and only if some
    hazard is within the collision radius of the player, the hazards that
    fire after the first are those within the collision radius of the
    centre, and the final score is the old score less 20 for each hazard
    that fired, floored at 0.  When the player already stands at the centre
    every hazard within the radius fires. *)
Theorem checkObstacleCollisions_sequential (st : Game) :
  let k := obstacleHits (player_position st) (obstacles st) in
  let st' := checkObstacleCollisions host st in
  score st' = match k with
              | O => score st
              | S _ => Z.max 0 (score st - 20 * Z.of_nat k)
              end
  /\ player_position st' = match k with O => player_position st | S _ => centre end
  /\ velocity st' = match k with O => velocity st | S _ => THREE.vec3 0 0 0 end
  /\ obstacles st' = obstacles st
  /\ Nat.eqb k 0 = Nat.eqb (obstaclesWithin (player_position st) (obstacles st)) 0
  /\ obstacleHits centre (obstacles st) = obstaclesWithin centre (obstacles st).
Proof.
  cbv zeta. unfold checkObstacleCollisions.
  destruct (checkObstaclesIn_spec (obstacles st) st) as (Hs & Hp & Hv & Ho & _).
  rewrite Hs, Hp, Hv, Ho, penalties_closed_form.
  repeat split.
  - apply obstacleHits_none.
  - apply obstacleHits_centre.
Qed.

End HazardFacts.

(** C2 as stated fails here.  Two hazards are within the collision radius
    of a player who stands away from the centre; the first hit moves the player to the centre, the
    second hazard is then out of reach, and the score drops by one penalty,
    not by two. *)
Lemma two_hazards_one_penalty :
  obstaclesWithin (player_position twoHazardsState) (obstacles twoHazardsState) = 2%nat
  /\ score twoHazardsState = 50%Z
  /\ score (checkObstacleCollisions sampleHost twoHazardsState) = 30%Z
  /\ Z.max 0 (50 - 2 * 20) = 10%Z.
Proof. vm_compute. repeat split; reflexivity. Qed.

(** * Hazard kinematics *)

Section KinematicsFacts.

Variable host : Host.

Lemma orbit_closedForm (t : float) (ob : Obstacle) :
  ob_position (orbit host t ob) = closedForm host (userData ob) t
  /\ userData (orbit host t ob) = userData ob
  /\ ob_rotation_y (orbit host t ob) = t * speed (userData ob).
Proof. repeat split. Qed.

Lemma orbitAll_map (t : float) (obs : list Obstacle) :
  orbitAll host t obs = map (orbit host t) obs.
Proof.
  induction obs as [|ob rest IH]; [reflexivity|].
  cbn [orbitAll map]. rewrite IH. reflexivity.
Qed.

(** C4. [updateObstacles] reads the clock once, and puts every hazard at
    the closed form of its parameters and that time (in seconds):
    (cos(t·speed + phase)·radius, 1 + sin(t·speed + phase·0.3)·0.5,
    sin(t·speed + phase)·radius).  The parameters are kept, so the
    position is a function of the parameters and the time alone: two runs
    with the same parameters and the same clock reading give the same
    positions, whatever else the states hold. *)
Theorem updateObstacles_closed_form (dt : float) (st : Game) :
  let t := performance_now host (perfReads st) / 1000 in
  map ob_position (obstacles (updateObstacles host dt st))
  = map (fun ob => closedForm host (userData ob) t) (obstacles st)
  /\ map userData (obstacles (updateObstacles host dt st))
     = map userData (obstacles st)
  /\ baseHeight = 1 /\ bobAmplitude = 0.5
  /\ forall (dt' : float) (st2 : Game),
       map userData (obstacles st2) = map userData (obstacles st) ->
       performance_now host (perfReads st2) = performance_now host (perfReads st) ->
       map ob_position (obstacles (updateObstacles host dt' st2))
       = map ob_position (obstacles (updateObstacles host dt st)).
Proof.
  assert (Hpos : forall d s,
             map ob_position (obstacles (updateObstacles host d s))
             = map (fun ud => closedForm host ud (performance_now host (perfReads s) / 1000))
                   (map userData (obstacles s))).
  { intros d s. unfold updateObstacles, now. cbn [obstacles set_obstacles perfReads].
    rewrite orbitAll_map, !map_map. reflexivity. }
  cbv zeta. repeat split.
  - rewrite Hpos, map_map. reflexivity.
  - unfold updateObstacles, now. cbn [obstacles set_obstacles].
    rewrite orbitAll_map, map_map. reflexivity.
  - intros dt' st2 Hud Hclock. rewrite !Hpos, Hud, Hclock. reflexivity.
Qed.

End KinematicsFacts.

(** * The camera shake *)

Section ShakeFacts.

Variable host : Host.

(** A tick at or after the end of the shake puts the camera back at [orig]
    and requests nothing further. *)
Lemma tick_done (start : float) (orig : THREE.Vector3) (amount ms : float)
    (st : Game) :
  JS.ge (elapsedFraction host start ms st) 1 = true ->
  camera_position (tick host start orig amount ms st) = orig
  /\ frameRequests (tick host start orig amount ms st) = frameRequests st
  /\ shakeTimeout (tick host start orig amount ms st) = shakeTimeout st.
Proof.
  unfold elapsedFraction, tick, now. cbn -[JS.ge].
  intros ->. repeat split.
Qed.

(** A tick before the end moves the camera off [orig] by the jitter and
    requests itself again, remembering the handle. *)
Lemma tick_pending (start : float) (orig : THREE.Vector3) (amount ms : float)
    (st : Game) :
  JS.ge (elapsedFraction host start ms st) 1 = false ->
  let f := 1 - elapsedFraction host start ms st in
  let r := fun i => Math_random host (randReads st + i) in
  camera_position (tick host start orig amount ms st)
  = THREE.vec3 (THREE.x orig + (r 0%nat - 0.5) * amount * f)
               (THREE.y orig + (r 1%nat - 0.5) * amount * f)
               (THREE.z orig + (r 2%nat - 0.5) * amount * f)
  /\ frameRequests (tick host start orig amount ms st)
     = frameRequests st ++ [(nextHandle st, tick_callback start orig amount ms)]
  /\ shakeTimeout (tick host start orig amount ms st) = nextHandle st.
Proof.
  unfold elapsedFraction, tick, now. cbn -[JS.ge].
  intros ->. cbn.
  rewrite Nat.add_0_r, !Nat.add_succ_r, Nat.add_0_r.
  repeat split.
Qed.

(** [shakeCamera] drops the request whose handle is [shakeTimeout], and
    the tick it runs and requests captured the camera position of the
    moment of the call: that is the position every later tick of this shake
    restores, whether or not an earlier shake had moved the camera. *)
Lemma shakeCamera_captures (amount ms : float) (st : Game) :
  shakeCamera host amount ms st
  = tick host (performance_now host (perfReads st)) (camera_position st) amount ms
      (cancelAnimationFrame (shakeTimeout st)
         (set_perfReads (S (perfReads st)) st)).
Proof. reflexivity. Qed.

Lemma cancelAnimationFrame_drops (h : nat) (cb : FrameCallback) (st : Game) :
  In (h, cb) (frameRequests (cancelAnimationFrame h st)) -> False.
Proof.
  unfold cancelAnimationFrame. cbn [frameRequests set_frameRequests].
  intros Hin. apply filter_In in Hin. destruct Hin as [_ Hneq].
  cbn [fst] in Hneq. rewrite Nat.eqb_refl in Hneq. discriminate Hneq.
Qed.

(** When the only pending ticks are those under the handle [shakeTimeout]
    (as [tick] leaves them), a new shake leaves no tick of an earlier shake
    pending: every tick still requested is the new one. *)
Lemma shakeCamera_cancels (amount ms : float) (st : Game) :
  (forall h s o a m,
      In (h, tick_callback s o a m) (frameRequests st) -> h = shakeTimeout st) ->
  forall h s o a m,
    In (h, tick_callback s o a m) (frameRequests (shakeCamera host amount ms st)) ->
    s = performance_now host (perfReads st) /\ o = camera_position st.
Proof.
  intros Hinv h s o a m.
  rewrite shakeCamera_captures.
  set (st0 := cancelAnimationFrame _ _).
  assert (Hnone : forall h' s' o' a' m',
             In (h', tick_callback s' o' a' m') (frameRequests st0) -> False).
  { intros h' s' o' a' m' Hin.
    assert (h' = shakeTimeout st).
    { apply (Hinv h' s' o' a' m').
      unfold st0, cancelAnimationFrame in Hin.
      cbn [frameRequests set_frameRequests set_perfReads] in Hin.
      apply filter_In in Hin. tauto. }
    subst h'. unfold st0 in Hin.
    apply cancelAnimationFrame_drops in Hin. exact Hin. }
  destruct (JS.ge (elapsedFraction host (performance_now host (perfReads st)) ms st0) 1)
    eqn:Hge.
  - destruct (tick_done _ (camera_position st) amount _ _ Hge) as (_ & Hreq & _).
    rewrite Hreq. intros Hin. destruct (Hnone _ _ _ _ _ Hin).
  - destruct (tick_pending _ (camera_position st) amount _ _ Hge) as (_ & Hreq & _).
    rewrite Hreq. intros Hin. apply in_app_or in Hin.
    destruct Hin as [Hin | [Heq | []]].
    + destruct (Hnone _ _ _ _ _ Hin).
    + injection Heq as _ <- <- _ _. split; reflexivity.
Qed.

(** Whatever tick a shake leaves pending, its last run puts the camera
    where it was when the shake was requested: at the baseline for a shake
    requested at rest, at the displaced position for one requested while an
    earlier shake had the camera displaced. *)
Lemma shake_restores_position_at_request (amount ms : float) (st : Game) :
  (forall h s o a m,
      In (h, tick_callback s o a m) (frameRequests st) -> h = shakeTimeout st) ->
  forall h s o a m (later : Game),
    In (h, tick_callback s o a m) (frameRequests (shakeCamera host amount ms st)) ->
    JS.ge (elapsedFraction host s m later) 1 = true ->
    camera_position (tick host s o a m later) = camera_position st.
Proof.
  intros Hinv h s o a m later Hin Hge.
  destruct (shakeCamera_cancels amount ms st Hinv h s o a m Hin) as [_ ->].
  apply tick_done, Hge.
Qed.

End ShakeFacts.

(** C1 at a concrete run.  The camera rests at (0, 8, 12).  A shake is
    requested, and a second one while the first is active.  The second
    call cancels the pending tick of the first, but the position it
    captured as the one to restore is the camera as the first shake had
    moved it.  Three frames later the second shake is over (nothing is
    pending), and the camera is left at the first shake's offset position,
    not at the baseline.  One shake alone, run to its end, restores the
    baseline exactly. *)
Theorem overlapping_shake_leaves_offset :
  let once := shakeCamera sampleHost 0.35 350 restingState in
  let twice := shakeCamera sampleHost 0.35 350 once in
  camera_position restingState = THREE.vec3 0 8 12
  /\ camera_position once = THREE.vec3 0.0625 8.0625 12.0625
  /\ map fst (frameRequests once) = [1%nat]
  /\ map fst (frameRequests twice) = [2%nat]
  /\ option_map (fun st => (camera_position st, frameRequests st))
       (runFrames sampleHost [1600; 1700; 1800] twice)
     = Some (THREE.vec3 0.0625 8.0625 12.0625, [])
  /\ option_map (fun st => (camera_position st, frameRequests st))
       (runFrames sampleHost [1600; 1700; 1800] once)
     = Some (THREE.vec3 0 8 12, []).
Proof. vm_compute. repeat split; reflexivity. Qed.

(** * The frame loop *)

Section LoopFacts.

Variable host : Host.

(** ** The step *)

Lemma frameStep_undefined (last : JS.Value) : frameStep JS.undefined last = nan.
Proof.
  unfold frameStep, JS.minus. cbn [JS.toNumber].
  rewrite FloatFacts.sub_nan_l, FloatFacts.div_nan_l.
  apply Math_min_nan.
Qed.

(** ** Collisions of a player whose position is [NaN] *)

Lemma itemHit_nan (p : THREE.Vector3) (it : Mesh) :
  THREE.x p = nan -> itemHit p it = false.
Proof.
  intros H. unfold itemHit. cbv zeta.
  rewrite (distanceToSquared_nan _ _ H). apply FloatFacts.ltb_nan_l.
Qed.

Lemma obstacleHit_nan (p : THREE.Vector3) (ob : Obstacle) :
  THREE.x p = nan -> obstacleHit p ob = false.
Proof.
  intros H. unfold obstacleHit. cbv zeta.
  rewrite (distanceToSquared_nan _ _ H). apply FloatFacts.ltb_nan_l.
Qed.

Lemma checkItemsFrom_nan (n : nat) (st : Game) :
  THREE.x (player_position st) = nan ->
  n <= List.length (items st) ->
  checkItemsFrom n st = Some st.
Proof.
  intros Hp. induction n as [|i IH]; intros Hn; [reflexivity|].
  cbn [checkItemsFrom].
  destruct (nth_error (items st) i) as [it|] eqn:Hit.
  - rewrite (itemHit_nan _ it Hp). apply IH. lia.
  - apply nth_error_None in Hit. lia.
Qed.

Lemma checkObstaclesIn_nan (obs : list Obstacle) (st : Game) :
  THREE.x (player_position st) = nan ->
  checkObstaclesIn host obs st = st.
Proof.
  intros Hp. induction obs as [|ob rest IH]; [reflexivity|].
  cbn [checkObstaclesIn]. rewrite (obstacleHit_nan _ ob Hp). exact IH.
Qed.

(** ** The first frame *)

(** A frame whose timestamp is missing runs the whole cycle with a [NaN]
    step, and leaves the velocity and the horizontal position [NaN]. *)
Lemma animate_undefined (st : Game) :
  started st = true ->
  exists st' : Game,
    animate host JS.undefined st = Some st'
    /\ velocity st' = nanVector
    /\ player_position st' = THREE.vec3 nan playerRadius nan
    /\ lastTime st' = JS.undefined
    /\ started st' = true.
Proof.
  intros Hs. unfold animate. rewrite Hs. cbn [negb].
  rewrite frameStep_undefined, updatePlayer_nan.
  unfold updateObstacles, now. cbv zeta.
  cbn [perfReads set_player_position set_velocity set_lastTime set_perfReads
       obstacles set_obstacles].
  unfold checkItemCollisions.
  rewrite checkItemsFrom_nan by (reflexivity || (cbn; lia)).
  unfold checkObstacleCollisions.
  rewrite checkObstaclesIn_nan by reflexivity.
  eexists. split; [reflexivity|].
  cbn. rewrite Hs. repeat split.
Qed.

Lemma spawnItems_started (n : nat) :
  forall st : Game, started (spawnItems host n st) = started st.
Proof.
  induction n as [|n IH]; intros st; [reflexivity|].
  cbn [spawnItems]. unfold randomPoint, random. cbv zeta.
  rewrite IH. reflexivity.
Qed.

Lemma spawnItems_velocity (n : nat) :
  forall st : Game, velocity (spawnItems host n st) = velocity st.
Proof.
  induction n as [|n IH]; intros st; [reflexivity|].
  cbn [spawnItems]. unfold randomPoint, random. cbv zeta.
  rewrite IH. reflexivity.
Qed.

Lemma startedState_started (st : Game) : started (startedState host st) = true.
Proof.
  unfold startedState, now. cbv zeta.
  cbn [started set_lastTime set_perfReads].
  destruct (Nat.ltb _ _); [rewrite spawnItems_started|]; reflexivity.
Qed.

Lemma startGame_calls_animate (st : Game) :
  started st = false ->
  startGame host st = animate host JS.undefined (startedState host st).
Proof.
  intros Hs. unfold startGame. rewrite Hs. reflexivity.
Qed.

(** What [startGame] leaves behind, for a game that had not started. *)
Lemma startGame_nan (st : Game) :
  started st = false ->
  exists st' : Game,
    startGame host st = Some st'
    /\ velocity st' = nanVector
    /\ player_position st' = THREE.vec3 nan playerRadius nan
    /\ lastTime st' = JS.undefined
    /\ started st' = true.
Proof.
  intros Hs. rewrite (startGame_calls_animate st Hs).
  apply animate_undefined, startedState_started.
Qed.


(** ** The cycle *)

Lemma checkItemCollisions_total (st : Game) :
  exists st' : Game, checkItemCollisions st = Some st'.
Proof.
  unfold checkItemCollisions. rewrite checkItemsFrom_spec by lia.
  eexists. reflexivity.
Qed.

(** [animate], for a running game, as the composition of its calls. *)
Lemma animate_running (now : JS.Value) (st : Game) :
  started st = true ->
  animate host now st =
  let dt := JS.Math_min 0.05 (JS.minus now (lastTime st) / 1000) in
  match checkItemCollisions
          (updateObstacles host dt (updatePlayer host dt (set_lastTime now st))) with
  | None => None
  | Some st3 =>
      Some (snd (requestAnimationFrame animate_callback
                   (updateCamera host (checkObstacleCollisions host st3))))
  end.
Proof.
  intros Hs. unfold animate. rewrite Hs. reflexivity.
Qed.

(** C7. The step [animate] hands to [updatePlayer] and [updateObstacles] is
    [Math.min(0.05, (now - lastTime) / 1000)]: the raw elapsed seconds when
    they are a number not above 0.05, and 0.05 when they are above it; a raw
    0.2 s (200 ms between the timestamps) gives 0.05.  With that step a
    running game calls, in this order, the motion update, the hazard
    kinematics, the pickup and the hazard collision checks and the camera
    update, each on the state the one before left, and then requests the
    next frame; no call fails. *)
Theorem animate_caps_step_and_orders (now : JS.Value) (st : Game) :
  let raw := JS.minus now (lastTime st) / 1000 in
  let dt := frameStep now (lastTime st) in
  dt = (if is_nan raw then nan else if 0.05 <? raw then 0.05 else raw)
  /\ (1200 - 1000) / 1000 = 0.2
  /\ frameStep (JS.Num 1200) (JS.Num 1000) = 0.05
  /\ exists st1 st2 st3 st4 st5 : Game,
       st1 = updatePlayer host dt (set_lastTime now st)
       /\ st2 = updateObstacles host dt st1
       /\ checkItemCollisions st2 = Some st3
       /\ st4 = checkObstacleCollisions host st3
       /\ st5 = updateCamera host st4
       /\ animate host now st =
          Some (if started st
                then snd (requestAnimationFrame animate_callback st5)
                else st).
Proof.
  cbv zeta. split; [apply Math_min_cap|].
  split; [reflexivity|]. split; [reflexivity|].
  destruct (checkItemCollisions_total
              (updateObstacles host (frameStep now (lastTime st))
                 (updatePlayer host (frameStep now (lastTime st))
                    (set_lastTime now st)))) as [st3 H3].
  do 5 eexists. repeat split; [exact H3|].
  destruct (started st) eqn:Hs.
  - rewrite (animate_running now st Hs). cbv zeta.
    fold (frameStep now (lastTime st)). rewrite H3. reflexivity.
  - unfold animate. rewrite Hs. reflexivity.
Qed.

(** C9. The step is bounded from above only.  When the raw elapsed seconds
    [q = (now - lastTime) / 1000] are not positive, [Math.min(0.05, q)] is [q]
    itself, and a running game runs its updates with that step.  [startGame]
    calls [animate] without a timestamp: the step of that first frame is [NaN]
    whatever [lastTime] holds, and the frame leaves every coordinate of the
    velocity and both horizontal coordinates of the position [NaN]. *)
Theorem step_only_capped_above (st : Game) (q : float) :
  started st = false ->
  (q <=? 0) = true ->
  JS.Math_min 0.05 q = q
  /\ (forall (now : JS.Value) (st0 : Game),
        started st0 = true ->
        JS.minus now (lastTime st0) / 1000 = q ->
        animate host now st0 =
        match checkItemCollisions
                (updateObstacles host q
                   (updatePlayer host q (set_lastTime now st0))) with
        | None => None
        | Some st3 =>
            Some (snd (requestAnimationFrame animate_callback
                         (updateCamera host (checkObstacleCollisions host st3))))
        end)
  /\ startGame host st = animate host JS.undefined (startedState host st)
  /\ (forall last : JS.Value, frameStep JS.undefined last = nan)
  /\ velocity (updatePlayer host nan (startedState host st)) = nanVector
  /\ player_position (updatePlayer host nan (startedState host st))
     = THREE.vec3 nan playerRadius nan
  /\ exists st' : Game,
       startGame host st = Some st'
       /\ velocity st' = nanVector
       /\ player_position st' = THREE.vec3 nan playerRadius nan.
Proof.
  intros Hs Hq.
  assert (Hmin : JS.Math_min 0.05 q = q).
  { rewrite Math_min_cap.
    destruct (FloatFacts.nonpositive_below q Hq) as [Hlt Hnan].
    rewrite Hnan, Hlt. reflexivity. }
  split; [exact Hmin|].
  split.
  { intros now0 st0 Hs0 Hraw.
    rewrite (animate_running now0 st0 Hs0). cbv zeta.
    rewrite Hraw, Hmin. reflexivity. }
  split; [apply startGame_calls_animate, Hs|].
  split; [apply frameStep_undefined|].
  rewrite updatePlayer_nan.
  split; [reflexivity|]. split; [reflexivity|].
  destruct (startGame_nan st Hs) as (st' & H1 & H2 & H3 & _).
  exists st'. auto.
Qed.

(** C5, on the first frame.  [startGame] runs the motion update with a
    [NaN] step; the containment test [dist > WORLD_RADIUS] is then false,
    and the player is left at a horizontal distance that is [NaN], not one
    that is at most [WORLD_RADIUS]. *)
Theorem containment_lost_on_first_frame (st : Game) :
  started st = false ->
  exists st' : Game,
    startGame host st = Some st'
    /\ horizontalDistance (player_position st') = nan
    /\ (horizontalDistance (player_position st') <=? WORLD_RADIUS) = false.
Proof.
  intros Hs.
  destruct (startGame_nan st Hs) as (st' & H1 & _ & H3 & _).
  exists st'. rewrite H3. split; [exact H1|]. split; reflexivity.
Qed.

(** C10, on the first frame.  [startGame] zeroes the velocity and then runs
    the motion update with a [NaN] step; [velocity.y += force.y * dt] makes
    the vertical component [NaN], and it is not zero when the call returns. *)
Theorem velocity_y_lost_on_first_frame (st : Game) :
  started st = false ->
  velocity (startedState host st) = THREE.vec3 0 0 0
  /\ exists st' : Game,
       startGame host st = Some st'
       /\ THREE.y (velocity st') = nan
       /\ (THREE.y (velocity st') =? 0) = false.
Proof.
  intros Hs. split.
  - unfold startedState, now. cbv zeta.
    cbn [velocity set_lastTime set_perfReads].
    destruct (Nat.ltb _ _); [rewrite spawnItems_velocity|]; reflexivity.
  - destruct (startGame_nan st Hs) as (st' & H1 & H2 & _).
    exists st'. rewrite H2. split; [exact H1|]. split; reflexivity.
Qed.

End LoopFacts.

(** * The theorems at concrete inputs *)

(** The game as [init] leaves it on the sample host has not started. *)
Lemma init_not_started : started (init sampleHost "Press start") = false.
Proof. reflexivity. Qed.

(** C8 at a camera that looks straight down, with W and D held. *)
Lemma updatePlayer_zero_heading_witness :
  (THREE.x (camera_direction lookingDownState) =? 0) = true
  /\ (THREE.z (camera_direction lookingDownState) =? 0) = true
  /\ THREE.isZero (forwardOf lookingDownState) = true
  /\ THREE.isZero (forceOf lookingDownState) = true.
Proof.
  pose proof (updatePlayer_zero_heading sampleHost 0.016 lookingDownState
                eq_refl eq_refl) as H.
  split; [reflexivity|]. split; [reflexivity|].
  split; [apply H | apply H].
Defined.

(** C9 at the initial game and a raw step of -0.2 s. *)
Lemma step_only_capped_above_witness :
  started (init sampleHost "Press start") = false
  /\ (-0.2 <=? 0) = true
  /\ JS.Math_min 0.05 (-0.2) = -0.2
  /\ exists st' : Game,
       startGame sampleHost (init sampleHost "Press start") = Some st'
       /\ velocity st' = nanVector
       /\ player_position st' = THREE.vec3 nan playerRadius nan.
Proof.
  pose proof (step_only_capped_above sampleHost (init sampleHost "Press start")
                (-0.2) eq_refl eq_refl) as H.
  split; [reflexivity|]. split; [reflexivity|].
  split; [apply H | apply H].
Defined.

(** C5 at the initial game. *)
Lemma containment_lost_on_first_frame_witness :
  started (init sampleHost "Press start") = false
  /\ exists st' : Game,
       startGame sampleHost (init sampleHost "Press start") = Some st'
       /\ horizontalDistance (player_position st') = nan
       /\ (horizontalDistance (player_position st') <=? WORLD_RADIUS) = false.
Proof.
  split; [reflexivity|].
  exact (containment_lost_on_first_frame sampleHost
           (init sampleHost "Press start") eq_refl).
Defined.

(** C10 at the initial game. *)
Lemma velocity_y_lost_on_first_frame_witness :
  started (init sampleHost "Press start") = false
  /\ velocity (startedState sampleHost (init sampleHost "Press start"))
     = THREE.vec3 0 0 0
  /\ exists st' : Game,
       startGame sampleHost (init sampleHost "Press start") = Some st'
       /\ THREE.y (velocity st') = nan
       /\ (THREE.y (velocity st') =? 0) = false.
Proof.
  split; [reflexivity|].
  exact (velocity_y_lost_on_first_frame sampleHost
           (init sampleHost "Press start") eq_refl).
Defined.

(** * Scenarios *)

(** The step for some raw gaps between two timestamps, in ms. *)
Example frameStep_examples :
  frameStep (JS.Num 1016) (JS.Num 1000) = 0.016
  /\ frameStep (JS.Num 1200) (JS.Num 1000) = 0.05
  /\ frameStep (JS.Num 1000) (JS.Num 1200) = -0.2
  /\ frameStep (JS.Num 1000) JS.undefined = nan.
Proof. vm_compute. repeat split; reflexivity. Qed.

(** The player stands on a pickup: that one is collected and the other
    stays, the score goes from 15 to 25, and the respawn waits in a timer. *)
Example pickup_under_player :
  option_map (fun st => (map mesh_id (items st), score st, timeouts st))
    (checkItemCollisions crowdedCentreState)
  = Some ([6%nat], 25%Z,
          [(800%Z, spawn_callback 1);
           (700%Z, restore_callback "Go! Collect cubes!")]).
Proof. vm_compute. reflexivity. Qed.

(** With the player at the centre both hazards within reach fire: the
    score goes from 15 to 0, not below. *)
Example two_hazards_at_centre :
  let st := checkObstacleCollisions sampleHost crowdedCentreState in
  obstaclesWithin centre (obstacles crowdedCentreState) = 2%nat
  /\ score st = 0%Z
  /\ player_position st = centre
  /\ velocity st = THREE.vec3 0 0 0
  /\ List.length (timeouts st) = 2%nat.
Proof. vm_compute. repeat split; reflexivity. Qed.

(** When the respawn timer fires, it adds one pickup; nothing else of the
    game adds one after the start. *)
Lemma spawn_timer_adds_one (host : Host) (st : Game) :
  exists m : Mesh,
    items (runTimerCallback host (spawn_callback 1) st) = items st ++ [m]
    /\ THREE.y (position m) = 0.6.
Proof.
  cbn [runTimerCallback spawnItems]. unfold randomPoint, random. cbv zeta.
  eexists. split; reflexivity.
Qed.

(** * Spawning and starting *)

(** Two states with the same variables are the same state. *)
Lemma game_ext (a b : Game) :
  camera_position a = camera_position b ->
  camera_direction a = camera_direction b ->
  player_position a = player_position b ->
  player_quaternion a = player_quaternion b ->
  items a = items b ->
  obstacles a = obstacles b ->
  keys a = keys b ->
  velocity a = velocity b ->
  score a = score b ->
  started a = started b ->
  lastTime a = lastTime b ->
  shakeTimeout a = shakeTimeout b ->
  messageText a = messageText b ->
  timeouts a = timeouts b ->
  frameRequests a = frameRequests b ->
  nextHandle a = nextHandle b ->
  perfReads a = perfReads b ->
  randReads a = randReads b ->
  nextMeshId a = nextMeshId b ->
  a = b.
Proof.
  destruct a, b. cbn. intros. subst. reflexivity.
Qed.

(** Reads the variables of a state built by assignments. *)
Ltac game_fields :=
  cbn [
       camera_position camera_direction player_position player_quaternion
       items obstacles keys velocity score started lastTime shakeTimeout
       messageText timeouts frameRequests nextHandle perfReads randReads
       nextMeshId set_camera_position set_camera_direction
       set_player_position set_player_quaternion set_items set_obstacles
       set_keys set_velocity set_score set_started set_lastTime
       set_shakeTimeout set_messageText set_timeouts set_frameRequests
       set_nextHandle set_perfReads set_randReads set_nextMeshId].

Section SpawnFacts.

Variable host : Host.

Lemma randomPoint_eq (rad : float) (st : Game) :
  randomPoint host rad st
  = (pointAt host rad (randReads st), set_randReads (S (S (randReads st))) st).
Proof. reflexivity. Qed.

Lemma spawnedItem_shift (id k i : nat) :
  spawnedItem host id k (S i) = spawnedItem host (S id) (S (S k)) i.
Proof.
  unfold spawnedItem.
  replace (id + S i)%nat with (S id + i)%nat by lia.
  replace (k + 2 * S i)%nat with (S (S k) + 2 * i)%nat by lia.
  reflexivity.
Qed.


Lemma map_seq_S {A : Type} (f : nat -> A) (n : nat) :
  map f (seq 0 (S n)) = f O :: map (fun i => f (S i)) (seq 0 n).
Proof.
  cbn [seq map]. rewrite <- seq_shift, map_map. reflexivity.
Qed.

(** [spawnItems(n)] in closed form: [n] meshes are appended, and only the
    items, the mesh counter and the count of random draws change. *)
Lemma spawnItems_closed_form (n : nat) :
  forall st : Game,
    spawnItems host n st
    = set_items
        (items st ++ map (spawnedItem host (nextMeshId st) (randReads st)) (seq 0 n))
        (set_nextMeshId (nextMeshId st + n)
           (set_randReads (randReads st + 2 * n) st)).
Proof.
  induction n as [|n IH]; intros st.
  - cbn [spawnItems seq map]. rewrite app_nil_r.
    apply game_ext; game_fields; try reflexivity; lia.
  - cbn [spawnItems]. rewrite randomPoint_eq. cbv zeta.
    rewrite IH, map_seq_S.
    apply game_ext; try reflexivity.
    + cbn [items set_items set_nextMeshId set_randReads nextMeshId randReads].
      rewrite <- app_assoc. cbn [app]. f_equal. f_equal.
      * unfold spawnedItem. rewrite !Nat.add_0_r. reflexivity.
      * apply map_ext. intros i. symmetry. apply spawnedItem_shift.
    + cbn [items set_items set_nextMeshId set_randReads nextMeshId randReads].
      lia.
    + cbn [items set_items set_nextMeshId set_randReads nextMeshId randReads].
      lia.
Qed.










End SpawnFacts.




(** * Invariants of the running page *)

Section EventFacts.

Variable host : Host.

(** ** What each function may change *)

Lemma updatePlayer_eq (dt : float) (st : Game) :
  updatePlayer host dt st
  = set_player_quaternion (player_quaternion (updatePlayer host dt st))
      (set_player_position (player_position (updatePlayer host dt st))
         (set_velocity (velocity (updatePlayer host dt st)) st)).
Proof.
  unfold updatePlayer, roll, contain, move. rewrite accelerate_eq.
  cbn [velocity set_velocity player_position set_player_position].
  repeat match goal with
         | |- context [if ?c then _ else _] => destruct c
         end; destruct st; reflexivity.
Qed.

Lemma updateObstacles_eq (dt : float) (st : Game) :
  updateObstacles host dt st
  = set_obstacles (orbitAll host (performance_now host (perfReads st) / 1000)
                     (obstacles st))
      (set_perfReads (S (perfReads st)) st).
Proof. reflexivity. Qed.

Lemma tick_eq (start : float) (orig : THREE.Vector3) (amount ms : float)
    (st : Game) :
  let st' := tick host start orig amount ms st in
  st' = set_shakeTimeout (shakeTimeout st')
          (set_nextHandle (nextHandle st')
             (set_frameRequests (frameRequests st')
                (set_camera_position (camera_position st')
                   (set_randReads (randReads st')
                      (set_perfReads (perfReads st') st))))).
Proof.
  cbv zeta. unfold tick, now. cbn -[JS.ge].
  destruct (JS.ge _ _); destruct st; reflexivity.
Qed.

Lemma fireTimer_frame (i : nat) (st : Game) :
  let st' := fireTimer host i st in
  score st' = score st
  /\ started st' = started st
  /\ velocity st' = velocity st
  /\ player_position st' = player_position st
  /\ frameRequests st' = frameRequests st
  /\ nextHandle st' = nextHandle st
  /\ shakeTimeout st' = shakeTimeout st
  /\ obstacles st' = obstacles st
  /\ exists new : list Mesh, items st' = items st ++ new.
Proof.
  cbv zeta. unfold fireTimer.
  destruct (nth_error (timeouts st) i) as [[ms [n | prev]]|]; cbn [snd runTimerCallback].
  - rewrite spawnItems_closed_form. repeat split. eexists. reflexivity.
  - repeat split. exists []. symmetry. apply app_nil_r.
  - repeat split. exists []. symmetry. apply app_nil_r.
Qed.

(** ** Invariants, in general *)

(** A property kept by every callback of a frame is kept by the frame. *)
Lemma runHandles_invariant (P : Game -> Prop) (ts : float) :
  (forall st h cb,
      P st -> lookupRequest h st = Some cb ->
      exists st', runFrameCallback host cb ts (cancelAnimationFrame h st) = Some st'
                  /\ P st') ->
  forall hs st, P st -> exists st', runHandles host hs ts st = Some st' /\ P st'.
Proof.
  intros Hstep hs. induction hs as [|h hs IH]; intros st HP.
  - exists st. split; [reflexivity | exact HP].
  - cbn [runHandles]. destruct (lookupRequest h st) as [cb|] eqn:Hl.
    + destruct (Hstep st h cb HP Hl) as (st1 & -> & HP1). apply IH, HP1.
    + apply IH, HP.
Qed.

(** A property kept by every callback, timer, key handler and by the start
    button is kept by every run of the page, and no run ends in an
    exception. *)
Lemma handleEvents_invariant (P : Game -> Prop) :
  (forall ts st h cb,
      P st -> lookupRequest h st = Some cb ->
      exists st', runFrameCallback host cb ts (cancelAnimationFrame h st) = Some st'
                  /\ P st') ->
  (forall i st, P st -> P (fireTimer host i st)) ->
  (forall c b st, P st -> P (setKey c b st)) ->
  (forall st, P st -> exists st', startGame host st = Some st' /\ P st') ->
  forall es st, P st -> exists st', handleEvents host es st = Some st' /\ P st'.
Proof.
  intros Hcb Htimer Hkey Hstart es.
  induction es as [|e es IH]; intros st HP.
  - exists st. split; [reflexivity | exact HP].
  - cbn [handleEvents].
    assert (Hone : exists st1, handleEvent host e st = Some st1 /\ P st1).
    { destruct e as [ts | i | c | c | ]; cbn [handleEvent].
      - apply runHandles_invariant; [apply Hcb | exact HP].
      - eexists. split; [reflexivity | apply Htimer, HP].
      - eexists. split; [reflexivity | apply Hkey, HP].
      - eexists. split; [reflexivity | apply Hkey, HP].
      - apply Hstart, HP. }
    destruct Hone as (st1 & -> & HP1). apply IH, HP1.
Qed.


(** ** The score *)

Lemma scoreValid_reward (s : Z) (k : nat) :
  scoreValid s -> scoreValid (s + ITEM_REWARD * Z.of_nat k).
Proof.
  unfold scoreValid, ITEM_REWARD. intros [H0 Hd]. split; [lia|].
  apply Z.divide_add_r; [exact Hd|]. apply Z.divide_factor_l.
Qed.

Lemma scoreValid_penalty (s : Z) :
  scoreValid s -> scoreValid (Z.max 0 (s - 20)).
Proof.
  unfold scoreValid. intros [H0 Hd]. split; [lia|].
  destruct (Z.max_spec 0 (s - 20)) as [[_ ->] | [_ ->]].
  - apply Z.divide_sub_r; [exact Hd|]. exists 2%Z. reflexivity.
  - apply Z.divide_0_r.
Qed.

Lemma scoreValid_penalties (k : nat) (s : Z) :
  scoreValid s -> scoreValid (Nat.iter k (fun s => Z.max 0 (s - 20)%Z) s).
Proof.
  intros H. induction k as [|k IH]; [exact H|].
  rewrite Nat.iter_succ. apply scoreValid_penalty, IH.
Qed.

Lemma penalize_started (st : Game) :
  started (penalize host st) = started st.
Proof.
  unfold penalize, shakeCamera, now. cbv zeta.
  match goal with
  | |- started (tick host ?a ?b ?c ?d ?e) = _ =>
      pose proof (tick_eq a b c d e) as Hq; cbv zeta in Hq; rewrite Hq
  end.
  reflexivity.
Qed.

Lemma checkObstaclesIn_started (obs : list Obstacle) :
  forall st : Game, started (checkObstaclesIn host obs st) = started st.
Proof.
  induction obs as [|ob rest IH]; intros st; [reflexivity|].
  cbn [checkObstaclesIn]. rewrite IH.
  destruct (obstacleHit _ _); [apply penalize_started | reflexivity].
Qed.

Lemma obstacleHits_le (obs : list Obstacle) :
  forall p : THREE.Vector3, (obstacleHits p obs <= List.length obs)%nat.
Proof.
  induction obs as [|ob rest IH]; intros p; [cbn; lia|].
  cbn [obstacleHits List.length].
  destruct (obstacleHit p ob); [specialize (IH centre) | specialize (IH p)]; lia.
Qed.

(** The state before the collision checks of a frame. *)
Lemma before_collisions (dt : float) (now : JS.Value) (st : Game) :
  let st2 := updateObstacles host dt (updatePlayer host dt (set_lastTime now st)) in
  score st2 = score st
  /\ items st2 = items st
  /\ List.length (obstacles st2) = List.length (obstacles st)
  /\ started st2 = started st
  /\ frameRequests st2 = frameRequests st
  /\ nextHandle st2 = nextHandle st
  /\ shakeTimeout st2 = shakeTimeout st.
Proof.
  cbv zeta. rewrite updateObstacles_eq, updatePlayer_eq. game_fields.
  rewrite orbitAll_map, length_map. repeat split.
Qed.

Lemma collected_frame (k : nat) (its : list Mesh) (st : Game) :
  started (collected k its st) = started st
  /\ score (collected k its st) = (score st + ITEM_REWARD * Z.of_nat k)%Z
  /\ obstacles (collected k its st) = obstacles st
  /\ player_position (collected k its st) = player_position st
  /\ velocity (collected k its st) = velocity st
  /\ frameRequests (collected k its st) = frameRequests st
  /\ nextHandle (collected k its st) = nextHandle st
  /\ shakeTimeout (collected k its st) = shakeTimeout st.
Proof. repeat split. Qed.

(** The end of a frame: the camera update and the next request. *)
Lemma after_collisions (st : Game) :
  let st' := snd (requestAnimationFrame animate_callback (updateCamera host st)) in
  started st' = started st
  /\ score st' = score st
  /\ items st' = items st
  /\ velocity st' = velocity st
  /\ player_position st' = player_position st
  /\ frameRequests st' = frameRequests st ++ [(nextHandle st, animate_callback)]
  /\ nextHandle st' = S (nextHandle st)
  /\ shakeTimeout st' = shakeTimeout st.
Proof. repeat split. Qed.

(** The score one frame leaves: the pickups add to it, then the hazards
    take from it. *)
Lemma animate_score (now : JS.Value) (st : Game) :
  exists (st' : Game) (collects hits : nat),
    animate host now st = Some st'
    /\ started st' = started st
    /\ score st'
       = Nat.iter hits (fun s => Z.max 0 (s - 20)%Z)
           (score st + ITEM_REWARD * Z.of_nat collects)%Z
    /\ (collects <= List.length (items st))%nat
    /\ (hits <= List.length (obstacles st))%nat.
Proof.
  destruct (started st) eqn:Hs.
  2:{ exists st, 0%nat, 0%nat. unfold animate. rewrite Hs. cbn [negb Nat.iter].
      rewrite Z.mul_0_r, Z.add_0_r. repeat split; lia. }
  rewrite (animate_running host now st Hs). cbv zeta.
  set (dt := JS.Math_min 0.05 (JS.minus now (lastTime st) / 1000)).
  destruct (before_collisions dt now st) as (Hsc & Hit & Hob & Hst & _).
  set (st2 := updateObstacles host dt (updatePlayer host dt (set_lastTime now st)))
    in *.
  unfold checkItemCollisions.
  rewrite checkItemsFrom_spec by lia.
  rewrite firstn_all, skipn_all, app_nil_r.
  set (k := itemHits (player_position st2) (items st2)).
  set (st3 := collected k _ st2).
  destruct (checkObstaclesIn_spec host (obstacles st3) st3) as (Hs3 & _).
  destruct (after_collisions (checkObstacleCollisions host st3))
    as (Ha1 & Ha2 & _).
  eexists. exists k, (obstacleHits (player_position st3) (obstacles st3)).
  split; [reflexivity|].
  rewrite Ha1, Ha2. unfold checkObstacleCollisions.
  rewrite checkObstaclesIn_started, Hs3.
  destruct (collected_frame k
              (filter (fun it => negb (itemHit (player_position st2) it)) (items st2))
              st2) as (Hc1 & Hc2 & Hc3 & _).
  fold st3 in Hc1, Hc2, Hc3.
  rewrite Hc1, Hc2, Hc3, Hst, Hsc.
  repeat split.
  - exact Hs.
  - unfold k, itemHits. rewrite Hit. apply filter_length_le.
  - rewrite <- Hob. apply obstacleHits_le.
Qed.

Lemma startedState_score (st : Game) : score (startedState host st) = 0%Z.
Proof.
  unfold startedState, now. cbv zeta. game_fields.
  destruct (Nat.ltb _ _); [rewrite spawnItems_closed_form|]; reflexivity.
Qed.

Lemma startGame_total_score (st : Game) :
  scoreValid (score st) ->
  exists st' : Game, startGame host st = Some st' /\ scoreValid (score st').
Proof.
  intros Hv. unfold startGame. destruct (started st) eqn:Hs.
  - exists st. split; [reflexivity | exact Hv].
  - change (exists st', animate host JS.undefined (startedState host st) = Some st'
                        /\ scoreValid (score st')).
    destruct (animate_score JS.undefined (startedState host st))
      as (st' & c & h & -> & _ & Hsc & _).
    exists st'. split; [reflexivity|]. rewrite Hsc.
    apply scoreValid_penalties, scoreValid_reward.
    rewrite startedState_score. split; [lia | apply Z.divide_0_r].
Qed.

(** X8. Whatever happens to the page (frames with any timestamps, timers
    firing, keys going down and up, clicks on the start button), no handler
    throws, and a score that is a non-negative multiple of 10 stays one:
    the penalty never takes it below 0. *)
Theorem score_stays_valid (es : list Event) (st : Game) :
  scoreValid (score st) ->
  exists st' : Game,
    handleEvents host es st = Some st' /\ scoreValid (score st').
Proof.
  apply (handleEvents_invariant (fun s => scoreValid (score s))).
  - intros ts s h cb Hv _. destruct cb as [|start orig amount ms].
    + cbn [runFrameCallback].
      destruct (animate_score (JS.Num ts) (cancelAnimationFrame h s))
        as (st' & c & k & -> & _ & Hsc & _).
      exists st'. split; [reflexivity|]. rewrite Hsc.
      apply scoreValid_penalties, scoreValid_reward. exact Hv.
    + cbn [runFrameCallback]. eexists. split; [reflexivity|].
      destruct (tick_frame host start orig amount ms (cancelAnimationFrame h s))
        as (_ & _ & -> & _).
      exact Hv.
  - intros i s Hv.
    destruct (fireTimer_frame i s) as (-> & _). exact Hv.
  - intros c b s Hv. exact Hv.
  - exact startGame_total_score.
Qed.

End EventFacts.

(** X8 at the initial game: a click on start, two frames and a key. *)
Lemma score_stays_valid_witness :
  scoreValid (score (init sampleHost "Press start"))
  /\ exists st' : Game,
       handleEvents sampleHost
         [start_click; frame_event 1016; keydown_event "KeyW"; frame_event 1033]
         (init sampleHost "Press start") = Some st'
       /\ scoreValid (score st').
Proof.
  assert (H0 : scoreValid (score (init sampleHost "Press start"))).
  { split; [vm_compute; discriminate | exists 0%Z; reflexivity]. }
  split; [exact H0|].
  exact (score_stays_valid sampleHost _ _ H0).
Defined.

(** * After the first frame *)

Section NaNFacts.

Variable host : Host.

Lemma addScaledVector_nanVector_l (w : THREE.Vector3) (s : float) :
  THREE.addScaledVector nanVector w s = nanVector.
Proof.
  unfold THREE.addScaledVector, nanVector. cbn [THREE.x THREE.y THREE.z].
  rewrite !FloatFacts.add_nan_l. reflexivity.
Qed.

Lemma addScaledVector_nanVector_r (v : THREE.Vector3) (s : float) :
  THREE.addScaledVector v nanVector s = nanVector.
Proof.
  unfold THREE.addScaledVector, nanVector. cbn [THREE.x THREE.y THREE.z].
  rewrite !FloatFacts.mul_nan_l, !FloatFacts.add_nan_r. reflexivity.
Qed.

(** Once the velocity is [NaN], every motion update leaves it [NaN] and
    puts the player nowhere, whatever the step, the keys and the heading. *)
Lemma updatePlayer_nan_velocity (dt : float) (st : Game) :
  velocity st = nanVector ->
  updatePlayer host dt st = set_player_position nowhere (set_velocity nanVector st).
Proof.
  intros Hv. unfold updatePlayer.
  assert (Ha : accelerate host dt st = set_velocity nanVector st).
  { rewrite accelerate_eq, Hv, addScaledVector_nanVector_l,
      multiplyScalar_nanVector. reflexivity. }
  rewrite Ha.
  assert (Hm : move dt (set_velocity nanVector st)
               = set_player_position nowhere (set_velocity nanVector st)).
  { unfold move. game_fields. rewrite addScaledVector_nanVector_r. reflexivity. }
  rewrite Hm, contain_nan by reflexivity.
  unfold roll. game_fields.
  change (THREE.length nanVector) with nan.
  rewrite FloatFacts.mul_nan_l. reflexivity.
Qed.

(** A frame of a game that is lost in [NaN] collects nothing, hits nothing
    and leaves it lost. *)
Lemma animate_lost (now : JS.Value) (st : Game) :
  lostInNaN st ->
  exists st' : Game,
    animate host now st = Some st'
    /\ lostInNaN st'
    /\ score st' = score st
    /\ items st' = items st
    /\ timeouts st' = timeouts st.
Proof.
  intros (Hs & Hv & Hp).
  rewrite (animate_running host now st Hs). cbv zeta.
  rewrite updatePlayer_nan_velocity by exact Hv.
  rewrite updateObstacles_eq.
  unfold checkItemCollisions.
  rewrite checkItemsFrom_nan by (reflexivity || (game_fields; lia)).
  unfold checkObstacleCollisions.
  rewrite checkObstaclesIn_nan by reflexivity.
  eexists. split; [reflexivity|].
  unfold lostInNaN. cbn [snd requestAnimationFrame updateCamera]. game_fields.
  repeat split. exact Hs.
Qed.

Lemma tick_started (start : float) (orig : THREE.Vector3) (amount ms : float)
    (st : Game) :
  started (tick host start orig amount ms st) = started st.
Proof.
  pose proof (tick_eq host start orig amount ms st) as Hq. cbv zeta in Hq.
  rewrite Hq. reflexivity.
Qed.

(** A frame without a timestamp loses the game. *)
Lemma animate_undefined_lost (st : Game) :
  started st = true ->
  exists st' : Game,
    animate host JS.undefined st = Some st'
    /\ lostInNaN st'
    /\ score st' = score st
    /\ items st' = items st.
Proof.
  intros Hs.
  rewrite (animate_running host _ _ Hs). cbv zeta.
  fold (frameStep JS.undefined (lastTime st)).
  rewrite frameStep_undefined, updatePlayer_nan, updateObstacles_eq.
  unfold checkItemCollisions.
  rewrite checkItemsFrom_nan by (reflexivity || (game_fields; lia)).
  unfold checkObstacleCollisions.
  rewrite checkObstaclesIn_nan by reflexivity.
  eexists. split; [reflexivity|].
  unfold lostInNaN. repeat split. exact Hs.
Qed.

Lemma startedState_items (st : Game) :
  exists new : list Mesh, items (startedState host st) = items st ++ new.
Proof.
  unfold startedState, now. cbv zeta. game_fields.
  destruct (Nat.ltb _ _).
  - rewrite spawnItems_closed_form. game_fields. eexists. reflexivity.
  - exists []. symmetry. apply app_nil_r.
Qed.

(** The first frame loses the game: [startGame] leaves it lost in [NaN],
    with score 0 and no pickup collected. *)
Lemma startGame_lost (st : Game) :
  started st = false ->
  exists st0 : Game,
    startGame host st = Some st0
    /\ lostInNaN st0
    /\ score st0 = 0%Z
    /\ exists new : list Mesh, items st0 = items st ++ new.
Proof.
  intros Hs. rewrite (startGame_calls_animate host st Hs).
  destruct (animate_undefined_lost _ (startedState_started host st))
    as (st0 & -> & Hl & Hsc & Hit).
  exists st0. split; [reflexivity|]. split; [exact Hl|].
  rewrite Hsc, Hit. split; [apply startedState_score | apply startedState_items].
Qed.

(** X5. The game cannot be played.  The first frame, which [startGame]
    runs without a timestamp, makes the velocity [NaN]; from then on,
    whatever frames, timers, keys and clicks follow, the velocity stays
    [NaN], the player stays at a [NaN] position, no pickup is ever
    collected (the list only grows), and the score stays 0. *)
Theorem started_game_is_lost (es : list Event) (st : Game) :
  started st = false ->
  exists st0 st' : Game,
    startGame host st = Some st0
    /\ handleEvents host es st0 = Some st'
    /\ started st' = true
    /\ velocity st' = nanVector
    /\ player_position st' = nowhere
    /\ score st' = 0%Z
    /\ exists new : list Mesh, items st' = items st0 ++ new.
Proof.
  intros Hs.
  destruct (startGame_lost st Hs) as (st0 & Hstart & Hlost & Hscore & _).
  exists st0.
  destruct (handleEvents_invariant host
              (fun s => lostInNaN s /\ score s = 0%Z
                        /\ exists new, items s = items st0 ++ new)) with
    (es := es) (st := st0) as (st' & Hrun & (Hs' & Hv' & Hp') & Hsc' & Hit').
  - intros ts s h cb (Hl & Hsc & new & Hit) _.
    destruct cb as [|start orig amount ms]; cbn [runFrameCallback].
    + destruct (animate_lost (JS.Num ts) (cancelAnimationFrame h s) Hl)
        as (s' & -> & Hl' & Hsc' & Hit' & _).
      exists s'. split; [reflexivity|]. rewrite Hsc', Hit'.
      repeat split; [apply Hl' | apply Hl' | apply Hl' | exact Hsc |].
      exists new. exact Hit.
    + eexists. split; [reflexivity|].
      destruct (tick_frame host start orig amount ms (cancelAnimationFrame h s))
        as (H1 & H2 & H3 & _ & H5 & _).
      destruct Hl as (Hl1 & Hl2 & Hl3).
      unfold lostInNaN. rewrite tick_started, H1, H2, H3, H5.
      repeat split; try assumption. exists new. exact Hit.
  - intros i s ((Hl1 & Hl2 & Hl3) & Hsc & new & Hit).
    destruct (fireTimer_frame host i s)
      as (H1 & H2 & H3 & H4 & _ & _ & _ & _ & new' & H9).
    unfold lostInNaN. rewrite H1, H2, H3, H4, H9, Hit.
    repeat split; try assumption.
    exists (new ++ new'). symmetry. apply app_assoc.
  - intros c b s H. exact H.
  - intros s ((Hl1 & Hl2 & Hl3) & Hsc & Hit).
    exists s. unfold startGame. rewrite Hl1.
    split; [reflexivity|]. repeat split; assumption.
  - split; [exact Hlost|]. split; [exact Hscore|].
    exists []. symmetry. apply app_nil_r.
  - exists st'. repeat split; assumption.
Qed.

End NaNFacts.

(** X5 at the initial game, with W held over three frames. *)
Lemma started_game_is_lost_witness :
  started (init sampleHost "Press start") = false
  /\ exists st0 st' : Game,
       startGame sampleHost (init sampleHost "Press start") = Some st0
       /\ handleEvents sampleHost
            [keydown_event "KeyW"; frame_event 1016; frame_event 1033;
             frame_event 1050]
            st0 = Some st'
       /\ started st' = true
       /\ velocity st' = nanVector
       /\ player_position st' = nowhere
       /\ score st' = 0%Z
       /\ exists new : list Mesh, items st' = items st0 ++ new.
Proof.
  split; [reflexivity|].
  exact (started_game_is_lost sampleHost _ (init sampleHost "Press start") eq_refl).
Defined.

(** * The frame loop stays single *)

Section RequestFacts.

Variable host : Host.

(** ** Lists of requests *)

Lemma NoDup_map_fst_filter {A : Type} (f : nat * A -> bool) (l : list (nat * A)) :
  NoDup (map fst l) -> NoDup (map fst (filter f l)).
Proof.
  induction l as [|r l IH]; intros H; [constructor|].
  cbn [map] in H. apply NoDup_cons_iff in H. destruct H as [Hr Hl].
  cbn [filter]. destruct (f r); [|apply IH, Hl].
  cbn [map]. constructor; [|apply IH, Hl].
  intros Hin. apply Hr. apply in_map_iff in Hin.
  destruct Hin as (x & Hx & Hin). apply filter_In in Hin.
  apply in_map_iff. exists x. tauto.
Qed.

(** Dropping the request under a handle takes one from the count of the
    requests of its kind. *)
Lemma filter_drop_handle {A : Type} (f : nat * A -> bool) (l : list (nat * A))
    (h : nat) (a : A) :
  NoDup (map fst l) ->
  In (h, a) l ->
  (List.length (filter f (filter (fun r => negb (Nat.eqb (fst r) h)) l))
   + (if f (h, a) then 1 else 0)
   = List.length (filter f l))%nat.
Proof.
  induction l as [|r l IH]; intros Hnd Hin; [destruct Hin|].
  cbn [map] in Hnd. apply NoDup_cons_iff in Hnd. destruct Hnd as [Hr Hl].
  cbn [filter]. destruct Hin as [-> | Hin].
  - cbn [fst]. rewrite Nat.eqb_refl. cbn [negb].
    assert (Hsame : filter (fun r => negb (Nat.eqb (fst r) h)) l = l).
    { apply forallb_filter_id, forallb_forall. intros x Hx.
      destruct (Nat.eqb_spec (fst x) h) as [He|]; [|reflexivity].
      exfalso. apply Hr. cbn [fst]. rewrite <- He. apply in_map, Hx. }
    rewrite Hsame. destruct (f (h, a)); cbn [List.length]; lia.
  - specialize (IH Hl Hin).
    destruct (Nat.eqb_spec (fst r) h) as [He|Hne]; cbn [negb].
    + exfalso. apply Hr. rewrite He.
      change h with (fst (h, a)). apply in_map, Hin.
    + cbn [filter]. destruct (f r); cbn [List.length]; lia.
Qed.

Lemma Forall_filter_keep {A : Type} (P : A -> Prop) (f : A -> bool) (l : list A) :
  Forall P l -> Forall P (filter f l).
Proof.
  rewrite !Forall_forall. intros H x Hx. apply filter_In in Hx. apply H, Hx.
Qed.

Lemma lookupRequest_In (h : nat) (cb : FrameCallback) (st : Game) :
  lookupRequest h st = Some cb -> In (h, cb) (frameRequests st).
Proof.
  unfold lookupRequest.
  destruct (find _ _) as [[h' cb']|] eqn:Hf; [|discriminate].
  intros H. injection H as <-.
  apply find_some in Hf. destruct Hf as [Hin He].
  cbn [fst] in He. apply Nat.eqb_eq in He. subst h'. exact Hin.
Qed.

(** ** The bookkeeping is kept *)

(** What only reads the requests keeps the bookkeeping. *)
Lemma requestsTidy_same (a b : Game) :
  frameRequests b = frameRequests a ->
  nextHandle b = nextHandle a ->
  shakeTimeout b = shakeTimeout a ->
  requestsTidy a -> requestsTidy b.
Proof.
  unfold requestsTidy. intros -> -> ->. tauto.
Qed.

Lemma pendingAnimates_same (a b : Game) :
  frameRequests b = frameRequests a -> pendingAnimates b = pendingAnimates a.
Proof. unfold pendingAnimates. intros ->. reflexivity. Qed.

Lemma cancel_tidy (h : nat) (st : Game) :
  requestsTidy st -> requestsTidy (cancelAnimationFrame h st).
Proof.
  unfold requestsTidy, cancelAnimationFrame. game_fields.
  intros (Hnd & Hlt & Hst & Hkind).
  split; [apply NoDup_map_fst_filter, Hnd|].
  split; [apply Forall_filter_keep, Hlt|].
  split; [exact Hst | apply Forall_filter_keep, Hkind].
Qed.

(** Cancelling [shakeTimeout] leaves no tick requested, and every
    [animate]. *)
Lemma cancel_shakeTimeout (st : Game) :
  requestsTidy st ->
  Forall (fun r => isAnimate r = true)
         (frameRequests (cancelAnimationFrame (shakeTimeout st) st))
  /\ pendingAnimates (cancelAnimationFrame (shakeTimeout st) st)
     = pendingAnimates st.
Proof.
  unfold requestsTidy, pendingAnimates, cancelAnimationFrame. game_fields.
  intros (_ & _ & _ & Hkind).
  assert (Hext : filter (fun r => negb (Nat.eqb (fst r) (shakeTimeout st)))
                        (frameRequests st)
                 = filter isAnimate (frameRequests st)).
  { apply filter_ext_in. intros r Hr.
    rewrite Forall_forall in Hkind. symmetry. apply Hkind, Hr. }
  rewrite Hext. split.
  - apply Forall_forall. intros r Hr. apply filter_In in Hr. tauto.
  - f_equal. clear. induction (frameRequests st) as [|r l IH]; [reflexivity|].
    cbn [filter]. destruct (isAnimate r) eqn:Hr; cbn [filter];
      rewrite ?Hr, IH; reflexivity.
Qed.

(** What [tick] does to the requests: nothing, or one more tick under a
    new handle that [shakeTimeout] remembers. *)
Lemma tick_requests (start : float) (orig : THREE.Vector3) (amount ms : float)
    (st : Game) :
  let st' := tick host start orig amount ms st in
  (frameRequests st' = frameRequests st
   /\ nextHandle st' = nextHandle st
   /\ shakeTimeout st' = shakeTimeout st)
  \/ (frameRequests st'
      = frameRequests st ++ [(nextHandle st, tick_callback start orig amount ms)]
      /\ nextHandle st' = S (nextHandle st)
      /\ shakeTimeout st' = nextHandle st).
Proof.
  cbv zeta. unfold tick, now. cbv zeta.
  destruct (JS.ge _ _); [left | right]; repeat split.
Qed.

Lemma tick_tidy (start : float) (orig : THREE.Vector3) (amount ms : float)
    (st : Game) :
  requestsTidy st ->
  Forall (fun r => isAnimate r = true) (frameRequests st) ->
  requestsTidy (tick host start orig amount ms st)
  /\ pendingAnimates (tick host start orig amount ms st) = pendingAnimates st.
Proof.
  intros Ht Hall.
  destruct (tick_requests start orig amount ms st)
    as [(Hf & Hn & Hs) | (Hf & Hn & Hs)]; cbv zeta in *.
  - split; [apply (requestsTidy_same st); assumption|].
    apply pendingAnimates_same, Hf.
  - destruct Ht as (Hnd & Hlt & Hst & Hkind).
    assert (Hfresh : ~ In (nextHandle st) (map fst (frameRequests st))).
    { intros Hin. apply in_map_iff in Hin. destruct Hin as (r & Hr & Hin).
      rewrite Forall_forall in Hlt. specialize (Hlt r Hin). lia. }
    split.
    + unfold requestsTidy. rewrite Hf, Hn, Hs.
      split.
      { rewrite map_app. cbn [map fst].
        apply NoDup_app; [exact Hnd | repeat constructor; intros [] |].
        intros a Ha [<- | []]. exact (Hfresh Ha). }
      split.
      { apply Forall_app. split.
        - eapply Forall_impl; [|exact Hlt]. cbn beta. intros r Hr. lia.
        - repeat constructor. }
      split; [lia|].
      apply Forall_app. split.
      * rewrite Forall_forall in *. intros r Hr.
        rewrite (Hall r Hr). specialize (Hlt r Hr).
        destruct (Nat.eqb_spec (fst r) (nextHandle st)); [lia | reflexivity].
      * repeat constructor. cbn [fst isAnimate snd].
        rewrite Nat.eqb_refl. reflexivity.
    + unfold pendingAnimates. rewrite Hf, filter_app, length_app.
      cbn. lia.
Qed.

Lemma shakeCamera_tidy (amount ms : float) (st : Game) :
  requestsTidy st ->
  requestsTidy (shakeCamera host amount ms st)
  /\ pendingAnimates (shakeCamera host amount ms st) = pendingAnimates st.
Proof.
  intros Ht. rewrite shakeCamera_captures.
  set (st0 := set_perfReads (S (perfReads st)) st).
  assert (Ht0 : requestsTidy st0) by (apply (requestsTidy_same st); auto).
  destruct (cancel_shakeTimeout st0 Ht0) as [Hall Hcount].
  change (shakeTimeout st) with (shakeTimeout st0).
  destruct (tick_tidy (performance_now host (perfReads st)) (camera_position st)
              amount ms _ (cancel_tidy (shakeTimeout st0) st0 Ht0) Hall)
    as [H1 H2].
  split; [exact H1|]. rewrite H2, Hcount. reflexivity.
Qed.

Lemma penalize_tidy (st : Game) :
  requestsTidy st ->
  requestsTidy (penalize host st)
  /\ pendingAnimates (penalize host st) = pendingAnimates st.
Proof.
  intros Ht. unfold penalize. cbv zeta.
  match goal with
  | |- requestsTidy (shakeCamera host ?a ?m ?s) /\ _ =>
      assert (Hs : requestsTidy s) by (apply (requestsTidy_same st); auto);
      destruct (shakeCamera_tidy a m s Hs) as [H1 H2]
  end.
  split; [exact H1|]. rewrite H2. reflexivity.
Qed.

Lemma checkObstaclesIn_tidy (obs : list Obstacle) :
  forall st : Game,
    requestsTidy st ->
    requestsTidy (checkObstaclesIn host obs st)
    /\ pendingAnimates (checkObstaclesIn host obs st) = pendingAnimates st.
Proof.
  induction obs as [|ob rest IH]; intros st Ht; [split; [exact Ht | reflexivity]|].
  cbn [checkObstaclesIn].
  destruct (obstacleHit _ _).
  - destruct (penalize_tidy st Ht) as [H1 H2].
    destruct (IH _ H1) as [H3 H4]. split; [exact H3|]. rewrite H4. exact H2.
  - apply IH, Ht.
Qed.


Lemma request_animate_tidy (st : Game) :
  let st' := snd (requestAnimationFrame animate_callback (updateCamera host st)) in
  requestsTidy st ->
  requestsTidy st' /\ pendingAnimates st' = S (pendingAnimates st).
Proof.
  cbv zeta. destruct (after_collisions host st) as (_ & _ & _ & _ & _ & Hf & Hn & Hs).
  cbv zeta in Hf, Hn, Hs.
  intros (Hnd & Hlt & Hst & Hkind).
  assert (Hfresh : ~ In (nextHandle st) (map fst (frameRequests st))).
  { intros Hin. apply in_map_iff in Hin. destruct Hin as (r & Hr & Hin).
    rewrite Forall_forall in Hlt. specialize (Hlt r Hin). lia. }
  split.
  - unfold requestsTidy. rewrite Hf, Hn, Hs.
    split.
    { rewrite map_app. cbn [map fst].
      apply NoDup_app; [exact Hnd | repeat constructor; intros [] |].
      intros a Ha [<- | []]. exact (Hfresh Ha). }
    split.
    { apply Forall_app. split.
      - eapply Forall_impl; [|exact Hlt]. cbn beta. intros r Hr. lia.
      - repeat constructor. }
    split; [lia|].
    apply Forall_app. split; [exact Hkind|].
    repeat constructor. cbn [fst isAnimate snd].
    destruct (Nat.eqb_spec (nextHandle st) (shakeTimeout st)); [lia | reflexivity].
  - unfold pendingAnimates. rewrite Hf, filter_app, length_app. cbn. lia.
Qed.

(** A frame of a running game keeps the bookkeeping and requests exactly
    one more [animate]. *)
Lemma animate_tidy (now : JS.Value) (st : Game) :
  started st = true ->
  requestsTidy st ->
  exists st' : Game,
    animate host now st = Some st'
    /\ started st' = true
    /\ requestsTidy st'
    /\ pendingAnimates st' = S (pendingAnimates st).
Proof.
  intros Hs Ht.
  rewrite (animate_running host now st Hs). cbv zeta.
  set (dt := JS.Math_min 0.05 (JS.minus now (lastTime st) / 1000)).
  destruct (before_collisions host dt now st) as (_ & _ & _ & Hst & Hf & Hn & Hsh).
  set (st2 := updateObstacles host dt (updatePlayer host dt (set_lastTime now st)))
    in *.
  unfold checkItemCollisions.
  rewrite checkItemsFrom_spec by lia.
  rewrite firstn_all, skipn_all, app_nil_r.
  set (k := itemHits (player_position st2) (items st2)).
  set (st3 := collected k _ st2).
  destruct (collected_frame k
              (filter (fun it => negb (itemHit (player_position st2) it)) (items st2))
              st2) as (Hc1 & _ & _ & _ & _ & Hc6 & Hc7 & Hc8).
  fold st3 in Hc1, Hc6, Hc7, Hc8.
  assert (Ht3 : requestsTidy st3).
  { apply (requestsTidy_same st); [congruence | congruence | congruence | exact Ht]. }
  destruct (checkObstaclesIn_tidy (obstacles st3) st3 Ht3) as [Ht4 Hcount].
  destruct (request_animate_tidy (checkObstacleCollisions host st3) Ht4)
    as [Ht5 Hcount5].
  destruct (after_collisions host (checkObstacleCollisions host st3)) as (Ha1 & _).
  eexists. split; [reflexivity|].
  split.
  { rewrite Ha1. unfold checkObstacleCollisions.
    rewrite checkObstaclesIn_started. congruence. }
  split; [exact Ht5|].
  rewrite Hcount5. unfold checkObstacleCollisions. rewrite Hcount.
  f_equal. apply pendingAnimates_same. congruence.
Qed.

(** At most one tick is requested when the bookkeeping is kept. *)
Lemma tidy_one_tick (st : Game) :
  requestsTidy st -> (pendingTicks st <= 1)%nat.
Proof.
  unfold requestsTidy, pendingTicks. intros (Hnd & _ & _ & Hkind).
  revert Hnd Hkind. generalize (shakeTimeout st) as h.
  induction (frameRequests st) as [|r l IH]; intros h Hnd Hkind; [cbn; lia|].
  cbn [map] in Hnd. apply NoDup_cons_iff in Hnd. destruct Hnd as [Hr Hl].
  apply Forall_cons_iff in Hkind. destruct Hkind as [Hk Hkl].
  cbn [filter]. specialize (IH h Hl Hkl).
  destruct (isAnimate r) eqn:Ha; cbn [negb]; [exact IH|].
  cbn [List.length].
  assert (Hnone : filter (fun r => negb (isAnimate r)) l = []).
  { destruct (filter (fun r => negb (isAnimate r)) l) as [|x xs] eqn:Hf;
      [reflexivity|].
    exfalso.
    assert (Hx : In x (filter (fun r => negb (isAnimate r)) l))
      by (rewrite Hf; left; reflexivity).
    apply filter_In in Hx. destruct Hx as [Hxl Hxa].
    rewrite Forall_forall in Hkl. specialize (Hkl x Hxl).
    apply negb_true_iff in Hxa. rewrite Hxa in Hkl.
    symmetry in Hk, Hkl.
    apply negb_false_iff, Nat.eqb_eq in Hk.
    apply negb_false_iff, Nat.eqb_eq in Hkl.
    apply Hr. rewrite Hk, <- Hkl. apply in_map, Hxl. }
  rewrite Hnone. cbn. lia.
Qed.

(** X6. The loop neither stops nor doubles.  In a running game with one
    [animate] requested and tidy bookkeeping, whatever frames, timers, keys
    and clicks on the start button follow, no handler throws, exactly one
    [animate] is requested after each of them, and at most one shake tick:
    a second click on start does not start a second loop, and a new shake
    never leaves an older tick behind. *)
Theorem loop_stays_single (es : list Event) (st : Game) :
  loopAlive st ->
  exists st' : Game,
    handleEvents host es st = Some st'
    /\ loopAlive st'
    /\ pendingAnimates st' = 1%nat
    /\ (pendingTicks st' <= 1)%nat.
Proof.
  intros Halive.
  destruct (handleEvents_invariant host loopAlive) with (es := es) (st := st)
    as (st' & Hrun & Hl').
  - intros ts s h cb (Hs & Ht & Hc) Hlook.
    apply lookupRequest_In in Hlook.
    pose proof (filter_drop_handle isAnimate (frameRequests s) h cb
                  (proj1 Ht) Hlook) as Hdrop.
    destruct cb as [|start orig amount ms]; cbn [runFrameCallback].
    + cbn [isAnimate snd] in Hdrop.
      destruct (animate_tidy (JS.Num ts) (cancelAnimationFrame h s) Hs
                  (cancel_tidy h s Ht)) as (s' & -> & Hs' & Ht' & Hc').
      exists s'. split; [reflexivity|]. split; [exact Hs'|]. split; [exact Ht'|].
      rewrite Hc'. unfold pendingAnimates in *.
      unfold cancelAnimationFrame. game_fields. lia.
    + cbn [isAnimate snd] in Hdrop.
      assert (Hh : h = shakeTimeout s).
      { destruct Ht as (_ & _ & _ & Hkind). rewrite Forall_forall in Hkind.
        specialize (Hkind _ Hlook). cbn [isAnimate snd fst] in Hkind.
        symmetry in Hkind. apply negb_false_iff, Nat.eqb_eq in Hkind.
        exact Hkind. }
      subst h.
      destruct (cancel_shakeTimeout s Ht) as [Hall Hcount].
      destruct (tick_tidy start orig amount ms _
                  (cancel_tidy (shakeTimeout s) s Ht) Hall) as [H1 H2].
      eexists. split; [reflexivity|].
      split; [rewrite tick_started; exact Hs|].
      split; [exact H1|]. rewrite H2, Hcount. exact Hc.
  - intros i s (Hs & Ht & Hc).
    destruct (fireTimer_frame host i s) as (_ & H2 & _ & _ & H5 & H6 & H7 & _).
    cbv zeta in *.
    split; [congruence|].
    split; [apply (requestsTidy_same s); assumption|].
    rewrite (pendingAnimates_same s); assumption.
  - intros c b s H. exact H.
  - intros s (Hs & Ht & Hc). exists s. unfold startGame. rewrite Hs.
    split; [reflexivity|]. split; [exact Hs|]. split; assumption.
  - exact Halive.
  - exists st'. split; [exact Hrun|]. split; [exact Hl'|].
    split; [apply Hl' | apply tidy_one_tick, Hl'].
Qed.

Lemma startedState_requests (st : Game) :
  frameRequests (startedState host st) = frameRequests st
  /\ nextHandle (startedState host st) = nextHandle st
  /\ shakeTimeout (startedState host st) = shakeTimeout st.
Proof.
  unfold startedState, now. cbv zeta. game_fields.
  destruct (Nat.ltb _ _); [rewrite spawnItems_closed_form|]; repeat split.
Qed.

(** X7. The first click on the start button starts the loop: from a game
    that has not started, with tidy bookkeeping and no [animate] requested,
    [startGame] returns a running game with exactly one [animate] requested;
    clicking again changes nothing. *)
Theorem startGame_starts_once (st : Game) :
  started st = false ->
  requestsTidy st ->
  pendingAnimates st = 0%nat ->
  exists st0 : Game,
    startGame host st = Some st0
    /\ loopAlive st0
    /\ startGame host st0 = Some st0.
Proof.
  intros Hs Ht Hc.
  rewrite (startGame_calls_animate host st Hs).
  destruct (startedState_requests st) as (Hf & Hn & Hsh).
  destruct (animate_tidy JS.undefined (startedState host st)
              (startedState_started host st)
              (requestsTidy_same st _ Hf Hn Hsh Ht))
    as (st0 & -> & Hs0 & Ht0 & Hc0).
  exists st0. split; [reflexivity|].
  split.
  - split; [exact Hs0|]. split; [exact Ht0|].
    rewrite Hc0, (pendingAnimates_same st _ Hf), Hc. reflexivity.
  - unfold startGame. rewrite Hs0. reflexivity.
Qed.

(** X4. A shake request leaves one shake.  In a game with tidy
    bookkeeping, [shakeCamera] keeps the bookkeeping tidy, cancels the tick
    of any earlier shake (at most one tick is requested afterwards) and no
    [animate]; the tick it leaves requested captured the camera position of
    the moment of the call, and its run at or after the end of the duration
    puts the camera back exactly there. *)
Theorem shakeCamera_leaves_one_shake (amount ms : float) (st : Game) :
  requestsTidy st ->
  let st' := shakeCamera host amount ms st in
  requestsTidy st'
  /\ (pendingTicks st' <= 1)%nat
  /\ pendingAnimates st' = pendingAnimates st
  /\ forall h s o a m (later : Game),
       In (h, tick_callback s o a m) (frameRequests st') ->
       s = performance_now host (perfReads st)
       /\ o = camera_position st
       /\ (JS.ge (elapsedFraction host s m later) 1 = true ->
           camera_position (tick host s o a m later) = camera_position st).
Proof.
  intros Ht. cbv zeta.
  destruct (shakeCamera_tidy amount ms st Ht) as [Ht' Hc].
  split; [exact Ht'|]. split; [apply tidy_one_tick, Ht'|]. split; [exact Hc|].
  assert (Hinv : forall h s o a m,
             In (h, tick_callback s o a m) (frameRequests st) ->
             h = shakeTimeout st).
  { intros h s o a m Hin. destruct Ht as (_ & _ & _ & Hkind).
    rewrite Forall_forall in Hkind. specialize (Hkind _ Hin).
    cbn [isAnimate snd fst] in Hkind. symmetry in Hkind.
    apply negb_false_iff, Nat.eqb_eq in Hkind. exact Hkind. }
  intros h s o a m later Hin.
  destruct (shakeCamera_cancels host amount ms st Hinv h s o a m Hin) as [Hs Ho].
  split; [exact Hs|]. split; [exact Ho|].
  intros Hge.
  exact (shake_restores_position_at_request host amount ms st Hinv h s o a m later
           Hin Hge).
Qed.

End RequestFacts.

(** * Hazards, pickups and messages over time *)

Section PageFacts.

Variable host : Host.

(** ** Hazards *)

Lemma orbit_orbit (t1 t2 : float) (ob : Obstacle) :
  orbit host t2 (orbit host t1 ob) = orbit host t2 ob.
Proof. reflexivity. Qed.

Lemma hazardParameters_orbitAll (t : float) (obs : list Obstacle) :
  map (fun ob => (ob_id ob, userData ob)) (orbitAll host t obs)
  = map (fun ob => (ob_id ob, userData ob)) obs.
Proof.
  rewrite orbitAll_map, map_map. apply map_ext. reflexivity.
Qed.

(** X9. Hazard positions carry no state of their own: [updateObstacles]
    overwrites the position and the yaw of every hazard from its parameters
    and the clock.  Two updates in a row leave the hazards exactly where the
    second alone would have put them at the same clock reading, so repeated
    or skipped updates never accumulate; the number of hazards, their ids
    and their parameters are kept. *)
Theorem updateObstacles_overwrites (dt1 dt2 : float) (st : Game) :
  obstacles (updateObstacles host dt2 (updateObstacles host dt1 st))
  = obstacles (updateObstacles host dt2 (set_perfReads (S (perfReads st)) st))
  /\ hazardParameters (updateObstacles host dt1 st) = hazardParameters st
  /\ List.length (obstacles (updateObstacles host dt1 st))
     = List.length (obstacles st)
  /\ perfReads (updateObstacles host dt1 st) = S (perfReads st).
Proof.
  rewrite !updateObstacles_eq. game_fields.
  split.
  - rewrite !orbitAll_map, map_map. apply map_ext. intros ob. apply orbit_orbit.
  - split; [apply hazardParameters_orbitAll|].
    rewrite orbitAll_map, length_map. split; reflexivity.
Qed.

Lemma end_of_frame_obstacles (st : Game) :
  obstacles (snd (requestAnimationFrame animate_callback (updateCamera host st)))
  = obstacles st.
Proof. reflexivity. Qed.

Lemma animate_hazardParameters (now : JS.Value) (st : Game) :
  exists st' : Game,
    animate host now st = Some st' /\ hazardParameters st' = hazardParameters st.
Proof.
  destruct (started st) eqn:Hs.
  2:{ exists st. unfold animate. rewrite Hs. split; reflexivity. }
  rewrite (animate_running host now st Hs). cbv zeta.
  set (dt := JS.Math_min 0.05 (JS.minus now (lastTime st) / 1000)).
  set (st1 := updatePlayer host dt (set_lastTime now st)).
  assert (H1 : obstacles st1 = obstacles st).
  { unfold st1. rewrite updatePlayer_eq. reflexivity. }
  unfold checkItemCollisions.
  rewrite checkItemsFrom_spec by lia.
  rewrite firstn_all, skipn_all, app_nil_r.
  match goal with
  | |- context [collected ?k ?its ?s2] =>
      destruct (collected_frame k its s2) as (_ & _ & Hc & _);
      set (st3 := collected k its s2) in *
  end.
  destruct (checkObstaclesIn_spec host (obstacles st3) st3) as (_ & _ & _ & Ho & _).
  eexists. split; [reflexivity|].
  unfold hazardParameters.
  rewrite end_of_frame_obstacles. unfold checkObstacleCollisions.
  rewrite Ho, Hc, updateObstacles_eq. game_fields.
  rewrite hazardParameters_orbitAll, H1. reflexivity.
Qed.

Lemma startedState_obstacles (st : Game) :
  obstacles (startedState host st) = obstacles st.
Proof.
  unfold startedState, now. cbv zeta. game_fields.
  destruct (Nat.ltb _ _); [rewrite spawnItems_closed_form|]; reflexivity.
Qed.

(** X10. Hazards last for the session: whatever frames, timers, keys and
    clicks happen, no hazard is created or destroyed, and none changes its
    id or its orbit parameters (phase, radius, speed); only positions and
    yaws move. *)
Theorem hazards_persist (es : list Event) (st : Game) :
  exists st' : Game,
    handleEvents host es st = Some st'
    /\ hazardParameters st' = hazardParameters st
    /\ List.length (obstacles st') = List.length (obstacles st).
Proof.
  destruct (handleEvents_invariant host
              (fun s => hazardParameters s = hazardParameters st))
    with (es := es) (st := st) as (st' & Hrun & Hp).
  - intros ts s h cb Hs _. destruct cb as [|start orig amount ms];
      cbn [runFrameCallback].
    + destruct (animate_hazardParameters (JS.Num ts) (cancelAnimationFrame h s))
        as (s' & -> & Hp).
      exists s'. split; [reflexivity|]. rewrite Hp. exact Hs.
    + eexists. split; [reflexivity|].
      destruct (tick_frame host start orig amount ms (cancelAnimationFrame h s))
        as (_ & _ & _ & Ho & _).
      unfold hazardParameters in *. rewrite Ho. exact Hs.
  - intros i s Hs.
    destruct (fireTimer_frame host i s) as (_ & _ & _ & _ & _ & _ & _ & Ho & _).
    unfold hazardParameters in *. cbv zeta in Ho. rewrite Ho. exact Hs.
  - intros c b s Hs. exact Hs.
  - intros s Hs. unfold startGame. destruct (started s) eqn:Hst.
    + exists s. split; [reflexivity | exact Hs].
    + change (exists st', animate host JS.undefined (startedState host s) = Some st'
                          /\ hazardParameters st' = hazardParameters st).
      destruct (animate_hazardParameters JS.undefined (startedState host s))
        as (s' & -> & Hp).
      exists s'. split; [reflexivity|]. rewrite Hp.
      unfold hazardParameters in *. rewrite startedState_obstacles. exact Hs.
  - reflexivity.
  - exists st'. split; [exact Hrun|]. split; [exact Hp|].
    unfold hazardParameters in Hp.
    rewrite <- (length_map (fun ob => (ob_id ob, userData ob)) (obstacles st')),
      Hp, length_map.
    reflexivity.
Qed.


(** ** Pickups *)

Lemma filter_keep_twice (p : THREE.Vector3) (l : list Mesh) :
  itemHits p (filter (fun it => negb (itemHit p it)) l) = 0%nat
  /\ filter (fun it => negb (itemHit p it)) (filter (fun it => negb (itemHit p it)) l)
     = filter (fun it => negb (itemHit p it)) l.
Proof.
  unfold itemHits. induction l as [|it l [IH1 IH2]]; [split; reflexivity|].
  cbn [filter]. destruct (itemHit p it) eqn:Hh; cbn [negb filter].
  - split; assumption.
  - rewrite Hh. cbn [negb]. rewrite IH2. split; [exact IH1 | reflexivity].
Qed.

(** X11. A pickup is collected once.  After [checkItemCollisions] no
    pickup that is left touches the player, and running the check again on
    the result changes nothing: no further removal, no further points, no
    further timer. *)
Theorem checkItemCollisions_once (st : Game) :
  exists st' : Game,
    checkItemCollisions st = Some st'
    /\ itemHits (player_position st') (items st') = 0%nat
    /\ checkItemCollisions st' = Some st'.
Proof.
  unfold checkItemCollisions at 1.
  rewrite checkItemsFrom_spec by lia.
  rewrite firstn_all, skipn_all, app_nil_r.
  match goal with
  | |- context [collected ?k ?its st] =>
      destruct (collected_frame k its st) as (_ & _ & _ & Hp & _);
      pose proof (collected_items k its st) as Hi;
      set (st' := collected k its st) in *
  end.
  exists st'. split; [reflexivity|].
  destruct (filter_keep_twice (player_position st) (items st)) as [H0 Hsame].
  split.
  - rewrite Hp, Hi. exact H0.
  - unfold checkItemCollisions.
    rewrite checkItemsFrom_spec by lia.
    rewrite firstn_all, skipn_all, app_nil_r.
    rewrite Hp, Hi, H0, Hsame, <- Hi.
    rewrite collected_zero. reflexivity.
Qed.

(** ** Messages *)

Lemma nth_error_app_length {A : Type} (l r : list A) :
  nth_error (l ++ r) (List.length l) = nth_error r 0.
Proof.
  rewrite nth_error_app2 by lia. rewrite Nat.sub_diag. reflexivity.
Qed.

Lemma splice1_app_length {A : Type} (l : list A) (a : A) (r : list A) :
  splice1 (List.length l) (l ++ a :: r) = l ++ r.
Proof.
  unfold splice1.
  rewrite firstn_app, firstn_all, Nat.sub_diag. cbn [firstn].
  rewrite app_nil_r.
  replace (S (List.length l)) with (List.length (l ++ [a]))
    by (rewrite length_app; cbn; lia).
  replace (l ++ a :: r) with ((l ++ [a]) ++ r) by (rewrite <- app_assoc; reflexivity).
  rewrite skipn_app, skipn_all, Nat.sub_diag. reflexivity.
Qed.

(** X12. A flashed message is taken back by its timer only when no other
    flash came in between.  [flashMessage] leaves one timer that restores
    the text it replaced, and after that timer the text is the old one.  But
    a second flash before the first timer fires remembers the first flash's
    text as the one to restore: when both timers have fired, in the order
    they were set, the page shows the first flash's text for good, not the
    text from before the flashes. *)
Theorem flashMessage_restores (t1 t2 : string) (ms1 ms2 : Z) (st : Game) :
  let n := List.length (timeouts st) in
  let once := flashMessage t1 ms1 st in
  let twice := flashMessage t2 ms2 once in
  messageText once = t1
  /\ timeouts once = timeouts st ++ [(ms1, restore_callback (messageText st))]
  /\ messageText (fireTimer host n once) = messageText st
  /\ timeouts (fireTimer host n once) = timeouts st
  /\ messageText twice = t2
  /\ timeouts twice
     = timeouts st ++ [(ms1, restore_callback (messageText st));
                       (ms2, restore_callback t1)]
  /\ messageText (fireTimer host n (fireTimer host n twice)) = t1
  /\ timeouts (fireTimer host n (fireTimer host n twice)) = timeouts st.
Proof.
  cbv zeta.
  set (a := (ms1, restore_callback (messageText st))).
  set (b := (ms2, restore_callback t1)).
  set (once := flashMessage t1 ms1 st).
  set (twice := flashMessage t2 ms2 once).
  assert (Honce : timeouts once = timeouts st ++ [a]) by reflexivity.
  assert (Htwice : timeouts twice = timeouts st ++ [a; b]).
  { unfold twice, once, flashMessage, setTimeout. cbv zeta. game_fields.
    rewrite <- app_assoc. reflexivity. }
  assert (Hfire : forall (s : Game) x r,
             timeouts s = timeouts st ++ x :: r ->
             fireTimer host (List.length (timeouts st)) s
             = runTimerCallback host (snd x) (set_timeouts (timeouts st ++ r) s)).
  { intros s x r Hs. unfold fireTimer.
    rewrite Hs, nth_error_app_length, splice1_app_length. reflexivity. }
  rewrite (Hfire once a [] Honce), (Hfire twice a [b] Htwice).
  rewrite (Hfire _ b []) by reflexivity.
  rewrite Honce, Htwice, app_nil_r.
  repeat split.
Qed.

(** ** The vertical velocity *)

Lemma startedState_velocity (st : Game) :
  velocity (startedState host st) = THREE.vec3 0 0 0.
Proof.
  unfold startedState, now. cbv zeta. game_fields.
  destruct (Nat.ltb _ _); [rewrite spawnItems_closed_form|]; reflexivity.
Qed.

Lemma animate_frameTail (now : JS.Value) (st : Game) :
  started st = true ->
  animate host now st
  = frameTail host
      (updateObstacles host (frameStep now (lastTime st))
         (updatePlayer host (frameStep now (lastTime st)) (set_lastTime now st))).
Proof.
  intros Hs. unfold animate, frameTail. rewrite Hs. cbn [negb]. cbv zeta.
  reflexivity.
Qed.

Lemma frameTail_velocity_y (st : Game) :
  zeroOrNaN (THREE.y (velocity st)) = true ->
  exists st' : Game,
    frameTail host st = Some st'
    /\ zeroOrNaN (THREE.y (velocity st')) = true.
Proof.
  intros Hv. unfold frameTail, checkItemCollisions.
  rewrite checkItemsFrom_spec by lia.
  rewrite firstn_all, skipn_all, app_nil_r.
  match goal with
  | |- context [collected ?k ?its st] =>
      destruct (collected_frame k its st) as (_ & _ & _ & _ & Hc & _);
      set (st3 := collected k its st) in *
  end.
  destruct (checkObstaclesIn_spec host (obstacles st3) st3) as (_ & _ & Hvel & _).
  destruct (after_collisions host (checkObstacleCollisions host st3))
    as (_ & _ & _ & Ha & _).
  eexists. split; [reflexivity|].
  rewrite Ha. unfold checkObstacleCollisions. rewrite Hvel.
  destruct (obstacleHits _ _); [|reflexivity].
  rewrite Hc. exact Hv.
Qed.

Lemma updateObstacles_velocity (dt : float) (st : Game) :
  velocity (updateObstacles host dt st) = velocity st.
Proof. reflexivity. Qed.

Lemma animate_velocity_y (now : JS.Value) (st : Game) :
  zeroOrNaN (THREE.y (velocity st)) = true ->
  exists st' : Game,
    animate host now st = Some st'
    /\ zeroOrNaN (THREE.y (velocity st')) = true.
Proof.
  intros Hv. destruct (started st) eqn:Hs.
  2:{ exists st. unfold animate. rewrite Hs. split; [reflexivity | exact Hv]. }
  rewrite (animate_frameTail now st Hs).
  apply frameTail_velocity_y.
  rewrite updateObstacles_velocity.
  apply updatePlayer_velocity_y. exact Hv.
Qed.

(** X13. The player never gets a vertical speed.  Whatever frames, timers,
    keys and clicks happen, a vertical component of the velocity that is a
    zero stays a zero or becomes [NaN]; it is never any other number (and
    the position's height is pinned anyway). *)
Theorem velocity_stays_horizontal (es : list Event) (st : Game) :
  zeroOrNaN (THREE.y (velocity st)) = true ->
  exists st' : Game,
    handleEvents host es st = Some st'
    /\ zeroOrNaN (THREE.y (velocity st')) = true.
Proof.
  apply (handleEvents_invariant host
           (fun s => zeroOrNaN (THREE.y (velocity s)) = true)).
  - intros ts s h cb Hv _. destruct cb as [|start orig amount ms];
      cbn [runFrameCallback].
    + apply animate_velocity_y. exact Hv.
    + eexists. split; [reflexivity|].
      destruct (tick_frame host start orig amount ms (cancelAnimationFrame h s))
        as (_ & -> & _).
      exact Hv.
  - intros i s Hv.
    destruct (fireTimer_frame host i s) as (_ & _ & H3 & _).
    cbv zeta in H3. rewrite H3. exact Hv.
  - intros c b s Hv. exact Hv.
  - intros s Hv. destruct (started s) eqn:Hst.
    + exists s. unfold startGame. rewrite Hst. split; [reflexivity | exact Hv].
    + rewrite (startGame_calls_animate host s Hst).
      apply animate_velocity_y. rewrite startedState_velocity. reflexivity.
Qed.

End PageFacts.

(** * Keys and touch buttons *)


(** X15. A touch button holds its key from press to release and is
    harmless otherwise.  Pressing makes the key read held; releasing makes it
    read released and touches no other key; a release of a button that is
    not pressed (a second mouseup, a mouseleave without a press) changes
    nothing at all.  The release clears the key even when the keyboard was
    holding the same code before the press. *)
Theorem touch_button_press_release (code : string) (st : Game) :
  let pressedB := bindStart (bind code) st in
  let released := bindEnd (fst pressedB) (snd pressedB) in
  keys (snd pressedB) code = true
  /\ active (fst pressedB) = true
  /\ keys (snd released) code = false
  /\ active (fst released) = false
  /\ (forall other : string,
        String.eqb other code = false ->
        keys (snd released) other = keys st other)
  /\ bindEnd (fst released) (snd released) = released
  /\ bindEnd (bind code) st = (bind code, st).
Proof.
  cbv zeta. unfold bindStart, bindEnd, bind, setKey.
  cbn [fst snd button_code active keys set_keys].
  rewrite !String.eqb_refl.
  repeat split.
  intros other Hne. rewrite Hne. reflexivity.
Qed.

(** * A player at rest *)

Module RestFacts.

Lemma eqb_zero_spec (a : float) : (a =? 0) = SFisZero (Prim2SF a).
Proof.
  rewrite FloatAxioms.eqb_spec. change (Prim2SF 0) with (S754_zero false).
  destruct (Prim2SF a) as [s| s| |s m e]; try reflexivity; destruct s; reflexivity.
Qed.

Lemma is_finite_spec (a : float) : is_finite a = SFisFinite (Prim2SF a).
Proof.
  unfold is_finite, is_nan, is_infinity.
  rewrite !FloatAxioms.eqb_spec, abs_spec.
  change (Prim2SF infinity) with (S754_infinity false).
  destruct (Prim2SF a) as [[|]| [|]| |s m e]; try reflexivity.
  cbn [SFabs]. rewrite FloatFacts.SFeqb_refl_finite. reflexivity.
Qed.

Lemma zero_mul_finite (a b : float) :
  (a =? 0) = true -> is_finite b = true -> (a * b =? 0) = true.
Proof.
  rewrite !eqb_zero_spec, is_finite_spec, mul_spec.
  destruct (Prim2SF a), (Prim2SF b); intros Ha Hb;
    try discriminate Ha; try discriminate Hb; reflexivity.
Qed.

Lemma finite_mul_zero (a b : float) :
  is_finite a = true -> (b =? 0) = true -> (a * b =? 0) = true.
Proof.
  rewrite !eqb_zero_spec, is_finite_spec, mul_spec.
  destruct (Prim2SF a), (Prim2SF b); intros Ha Hb;
    try discriminate Ha; try discriminate Hb; reflexivity.
Qed.

Lemma zero_add_zero (a b : float) :
  (a =? 0) = true -> (b =? 0) = true -> (a + b =? 0) = true.
Proof.
  rewrite !eqb_zero_spec, add_spec.
  destruct (Prim2SF a) as [[|]| | |], (Prim2SF b) as [[|]| | |]; intros Ha Hb;
    try discriminate Ha; try discriminate Hb; reflexivity.
Qed.

(** Adding a zero to a finite number gives the same number. *)
Lemma finite_add_zero (a b : float) :
  is_finite a = true -> (b =? 0) = true -> (a + b =? a) = true.
Proof.
  rewrite eqb_zero_spec, is_finite_spec, FloatAxioms.eqb_spec, add_spec.
  destruct (Prim2SF a) as [[|]| | |s m e], (Prim2SF b) as [[|]| | |]; intros Ha Hb;
    try discriminate Ha; try discriminate Hb; try reflexivity;
    cbn [SF64add SFadd]; apply FloatFacts.SFeqb_refl_finite.
Qed.

(** ... and the same square. *)
Lemma finite_add_zero_square (a b : float) :
  is_finite a = true -> (b =? 0) = true -> (a + b) * (a + b) = a * a.
Proof.
  rewrite eqb_zero_spec, is_finite_spec. intros Ha Hb.
  apply Prim2SF_inj. rewrite !mul_spec, add_spec.
  destruct (Prim2SF a) as [[|]| | |s m e], (Prim2SF b) as [[|]| | |];
    try discriminate Ha; try discriminate Hb; reflexivity.
Qed.

Lemma small_not_below_zero (a : float) :
  (a =? 0) = true -> JS.gt a 0.0001 = false.
Proof.
  unfold JS.gt. rewrite eqb_zero_spec, ltb_spec.
  destruct (Prim2SF a); intros Ha; try discriminate Ha. reflexivity.
Qed.

Lemma length_zero (v : THREE.Vector3) :
  THREE.isZero v = true -> THREE.length v = 0.
Proof.
  destruct v as [a b c]. unfold THREE.isZero, THREE.eqb.
  cbn [THREE.x THREE.y THREE.z THREE.origin].
  intros H. apply andb_prop in H. destruct H as [H Hc].
  apply andb_prop in H. destruct H as [Ha Hb].
  destruct (FloatFacts.eqb_zero a Ha) as [-> | ->];
    destruct (FloatFacts.eqb_zero b Hb) as [-> | ->];
    destruct (FloatFacts.eqb_zero c Hc) as [-> | ->];
    reflexivity.
Qed.

End RestFacts.

Section Rest.

Variable host : Host.

Lemma isZero_intro (a b c : float) :
  (a =? 0) = true -> (b =? 0) = true -> (c =? 0) = true ->
  THREE.isZero (THREE.vec3 a b c) = true.
Proof.
  intros Ha Hb Hc. unfold THREE.isZero, THREE.eqb.
  cbn [THREE.x THREE.y THREE.z THREE.origin]. rewrite Ha, Hb, Hc. reflexivity.
Qed.

Lemma isZero_elim (v : THREE.Vector3) :
  THREE.isZero v = true ->
  (THREE.x v =? 0) = true /\ (THREE.y v =? 0) = true /\ (THREE.z v =? 0) = true.
Proof.
  unfold THREE.isZero, THREE.eqb. cbn [THREE.x THREE.y THREE.z THREE.origin].
  intros H. apply andb_prop in H. destruct H as [H Hc].
  apply andb_prop in H. destruct H as [Ha Hb]. auto.
Qed.

Lemma finiteVector_elim (v : THREE.Vector3) :
  finiteVector v = true ->
  is_finite (THREE.x v) = true /\ is_finite (THREE.y v) = true
  /\ is_finite (THREE.z v) = true.
Proof.
  unfold finiteVector. intros H. apply andb_prop in H. destruct H as [H Hc].
  apply andb_prop in H. destruct H as [Ha Hb]. auto.
Qed.

(** With no input, each component of the force is a zero. *)
Lemma idle_component (f r : float) :
  is_finite f = true -> is_finite r = true ->
  (0 + f * (0 * 18) + r * (0 * 18) =? 0) = true.
Proof.
  intros Hf Hr. apply RestFacts.zero_add_zero.
  - apply RestFacts.zero_add_zero; [reflexivity|].
    apply RestFacts.finite_mul_zero; [exact Hf | reflexivity].
  - apply RestFacts.finite_mul_zero; [exact Hr | reflexivity].
Qed.

Lemma forceOf_idle (st : Game) :
  input st = (0, 0) ->
  finiteVector (forwardOf st) = true ->
  finiteVector (rightOf (forwardOf st)) = true ->
  THREE.isZero (forceOf st) = true.
Proof.
  intros Hi Hf Hr. unfold forceOf. rewrite Hi.
  apply finiteVector_elim in Hf. destruct Hf as (Hfx & Hfy & Hfz).
  apply finiteVector_elim in Hr. destruct Hr as (Hrx & Hry & Hrz).
  unfold THREE.addScaledVector. cbn [THREE.x THREE.y THREE.z THREE.origin].
  apply isZero_intro; apply idle_component; assumption.
Qed.

(** A zero velocity under a zero force stays a zero through the damping. *)
Lemma damped_idle (v force : THREE.Vector3) (dt damping : float) :
  THREE.isZero v = true -> THREE.isZero force = true ->
  is_finite dt = true -> is_finite damping = true ->
  THREE.isZero
    (THREE.multiplyScalar (THREE.addScaledVector v force dt) damping) = true.
Proof.
  intros Hv Hf Hdt Hd.
  apply isZero_elim in Hv. destruct Hv as (Hvx & Hvy & Hvz).
  apply isZero_elim in Hf. destruct Hf as (Hfx & Hfy & Hfz).
  unfold THREE.multiplyScalar, THREE.addScaledVector.
  cbn [THREE.x THREE.y THREE.z].
  apply isZero_intro; apply RestFacts.zero_mul_finite; try exact Hd;
    apply RestFacts.zero_add_zero; try assumption;
    apply RestFacts.zero_mul_finite; assumption.
Qed.

Lemma clampSpeed_zero (v : THREE.Vector3) :
  THREE.isZero v = true -> clampSpeed v = v.
Proof.
  intros Hv. unfold clampSpeed. rewrite (RestFacts.length_zero v Hv). reflexivity.
Qed.

(** Moving by a zero velocity keeps the horizontal distance. *)
Lemma horizontalDistance_idle (p v : THREE.Vector3) (dt : float) :
  finiteVector p = true -> THREE.isZero v = true -> is_finite dt = true ->
  horizontalDistance (THREE.setY playerRadius (THREE.addScaledVector p v dt))
  = horizontalDistance p.
Proof.
  intros Hp Hv Hdt.
  apply finiteVector_elim in Hp. destruct Hp as (Hpx & Hpy & Hpz).
  apply isZero_elim in Hv. destruct Hv as (Hvx & Hvy & Hvz).
  unfold horizontalDistance, THREE.setY, THREE.addScaledVector.
  cbn [THREE.x THREE.y THREE.z].
  rewrite (RestFacts.finite_add_zero_square (THREE.x p) (THREE.x v * dt) Hpx
             (RestFacts.zero_mul_finite _ _ Hvx Hdt)).
  rewrite (RestFacts.finite_add_zero_square (THREE.z p) (THREE.z v * dt) Hpz
             (RestFacts.zero_mul_finite _ _ Hvz Hdt)).
  reflexivity.
Qed.

Lemma travel_idle (v : THREE.Vector3) (dt : float) :
  THREE.isZero v = true -> is_finite dt = true ->
  JS.gt (THREE.length v * dt) 0.0001 = false.
Proof.
  intros Hv Hdt. rewrite (RestFacts.length_zero v Hv).
  apply RestFacts.small_not_below_zero.
  apply RestFacts.zero_mul_finite; [reflexivity | exact Hdt].
Qed.

(** X16.  A player at rest stays at rest: with no movement input, a zero
    velocity, a finite time step and damping factor, a finite camera
    heading and a finite position inside the arena, [updatePlayer] leaves
    the velocity a zero, leaves the position numerically where it was (at
    the ball's height), and does not roll the ball. *)
Theorem player_at_rest_stays (dt : float) (st : Game) :
  input st = (0, 0) ->
  THREE.isZero (velocity st) = true ->
  is_finite dt = true ->
  is_finite (Math_pow host 0.8 (dt * 10)) = true ->
  finiteVector (forwardOf st) = true ->
  finiteVector (rightOf (forwardOf st)) = true ->
  finiteVector (player_position st) = true ->
  JS.gt (horizontalDistance (player_position st)) WORLD_RADIUS = false ->
  let st' := updatePlayer host dt st in
  THREE.isZero (velocity st') = true
  /\ THREE.eqb (player_position st')
       (THREE.setY playerRadius (player_position st)) = true
  /\ player_quaternion st' = player_quaternion st.
Proof.
  intros Hi Hv Hdt Hpow Hf Hr Hp Hin.
  pose proof (damped_idle _ _ _ _ Hv (forceOf_idle st Hi Hf Hr) Hdt Hpow) as Hz.
  cbv zeta. unfold updatePlayer. rewrite accelerate_eq.
  set (v := THREE.multiplyScalar _ _) in *.
  rewrite (clampSpeed_zero v Hz).
  unfold roll, contain, move.
  cbn [velocity set_velocity player_position set_player_position].
  rewrite (horizontalDistance_idle _ _ _ Hp Hz Hdt), Hin.
  cbn [velocity set_velocity player_position set_player_position].
  rewrite (travel_idle v dt Hz Hdt).
  game_fields.
  split; [exact Hz|]. split; [|reflexivity].
  apply finiteVector_elim in Hp. destruct Hp as (Hpx & Hpy & Hpz).
  apply isZero_elim in Hz. destruct Hz as (Hvx & Hvy & Hvz).
  unfold THREE.eqb, THREE.setY, THREE.addScaledVector.
  cbn [THREE.x THREE.y THREE.z].
  rewrite (RestFacts.finite_add_zero _ _ Hpx (RestFacts.zero_mul_finite _ _ Hvx Hdt)).
  rewrite (RestFacts.finite_add_zero _ _ Hpz (RestFacts.zero_mul_finite _ _ Hvz Hdt)).
  reflexivity.
Qed.

End Rest.

Lemma player_at_rest_stays_witness :
  let st := set_player_position (THREE.vec3 3 playerRadius 4) restingState in
  let st' := updatePlayer sampleHost 0.016 st in
  THREE.isZero (velocity st') = true
  /\ THREE.eqb (player_position st')
       (THREE.setY playerRadius (player_position st)) = true
  /\ player_quaternion st' = player_quaternion st.
Proof.
  apply (player_at_rest_stays sampleHost 0.016
           (set_player_position (THREE.vec3 3 playerRadius 4) restingState));
    vm_compute; reflexivity.
Defined.

(** * The camera follow *)

Module CameraFacts.

(** A finite number minus itself is a zero. *)
Lemma finite_sub_self (a : float) :
  is_finite a = true -> (a - a =? 0) = true.
Proof.
  rewrite RestFacts.eqb_zero_spec, RestFacts.is_finite_spec, sub_spec.
  destruct (Prim2SF a) as [[|]| [|]| |s m e]; intros Ha;
    try discriminate Ha; try reflexivity.
  unfold SF64sub, SFsub. cbv zeta. rewrite Z.sub_diag. reflexivity.
Qed.

(** One [lerp] coordinate of a camera that is where it wants to be. *)
Lemma lerp_settled (c alpha : float) :
  is_finite c = true -> is_finite alpha = true ->
  (c + (c - c) * alpha =? c) = true.
Proof.
  intros Hc Ha. apply RestFacts.finite_add_zero; [exact Hc|].
  apply RestFacts.zero_mul_finite; [apply finite_sub_self; exact Hc | exact Ha].
Qed.

End CameraFacts.

Section Camera.

Variable host : Host.

(** [updateCamera] writes the camera's position and direction only. *)
Lemma updateCamera_eq (st : Game) :
  updateCamera host st
  = set_camera_direction (camera_direction (updateCamera host st))
      (set_camera_position (camera_position (updateCamera host st)) st).
Proof. reflexivity. Qed.

(** X17.  A settled camera stays: when the camera is exactly at its
    desired offset (0, 6.5, 11) from the player and that place is finite,
    [updateCamera] leaves it numerically where it is, and touches nothing
    but the camera. *)
Theorem updateCamera_settled (st : Game) :
  let p := player_position st in
  camera_position st
  = THREE.vec3 (THREE.x p) (THREE.y p + 6.5) (THREE.z p + 11) ->
  finiteVector (camera_position st) = true ->
  let st' := updateCamera host st in
  THREE.eqb (camera_position st') (camera_position st) = true
  /\ st' = set_camera_direction (camera_direction st')
             (set_camera_position (camera_position st') st).
Proof.
  intros p Hc Hf. cbv zeta. split; [|apply updateCamera_eq].
  unfold updateCamera. game_fields. fold p. rewrite <- Hc.
  apply finiteVector_elim in Hf. destruct Hf as (Hx & Hy & Hz).
  unfold THREE.eqb, THREE.lerp. cbn [THREE.x THREE.y THREE.z].
  rewrite !CameraFacts.lerp_settled by (assumption || reflexivity).
  reflexivity.
Qed.

(** X18.  The camera follows the player into [NaN]: once the player's
    horizontal coordinates are [NaN], one [updateCamera] makes the camera's
    horizontal coordinates [NaN] too, wherever the camera was. *)
Theorem updateCamera_follows_nowhere (st : Game) :
  player_position st = nowhere ->
  let c := camera_position (updateCamera host st) in
  THREE.x c = nan /\ THREE.z c = nan.
Proof.
  intros Hp. cbv zeta. unfold updateCamera. game_fields. rewrite Hp.
  unfold THREE.lerp, nowhere. cbn [THREE.x THREE.y THREE.z].
  rewrite FloatFacts.add_nan_l, !FloatFacts.sub_nan_l, !FloatFacts.mul_nan_l,
    !FloatFacts.add_nan_r.
  split; reflexivity.
Qed.

End Camera.

Lemma updateCamera_settled_witness :
  let st := set_camera_position (THREE.vec3 0 (playerRadius + 6.5) 11)
              restingState in
  let st' := updateCamera sampleHost st in
  THREE.eqb (camera_position st') (camera_position st) = true
  /\ st' = set_camera_direction (camera_direction st')
             (set_camera_position (camera_position st') st).
Proof.
  apply (updateCamera_settled sampleHost
           (set_camera_position (THREE.vec3 0 (playerRadius + 6.5) 11)
              restingState));
    vm_compute; reflexivity.
Defined.

Lemma updateCamera_follows_nowhere_witness :
  let st := set_player_position nowhere restingState in
  let c := camera_position (updateCamera sampleHost st) in
  THREE.x c = nan /\ THREE.z c = nan.
Proof.
  apply (updateCamera_follows_nowhere sampleHost
           (set_player_position nowhere restingState)).
  reflexivity.
Defined.

(** * The further theorems at concrete inputs *)

Lemma requestsTidy_resting : requestsTidy restingState.
Proof.
  unfold requestsTidy. cbn. repeat split; try constructor.
Qed.

Lemma loopAlive_running : loopAlive runningState.
Proof.
  unfold loopAlive, requestsTidy. cbn.
  repeat split; repeat constructor; try lia. intros [].
Qed.

(** The loop at a running game: a frame in which a hazard hits and the
    camera shakes, a second click on start, and two more frames. *)
Lemma loop_stays_single_witness :
  loopAlive runningState
  /\ exists st' : Game,
       handleEvents sampleHost
         [frame_event 1016; start_click; frame_event 1033; frame_event 1050]
         runningState = Some st'
       /\ loopAlive st'
       /\ pendingAnimates st' = 1%nat
       /\ (pendingTicks st' <= 1)%nat.
Proof.
  split; [exact loopAlive_running|].
  exact (loop_stays_single sampleHost _ runningState loopAlive_running).
Defined.

(** The first click at a game at rest. *)
Lemma startGame_starts_once_witness :
  started restingState = false
  /\ requestsTidy restingState
  /\ pendingAnimates restingState = 0%nat
  /\ exists st0 : Game,
       startGame sampleHost restingState = Some st0
       /\ loopAlive st0
       /\ startGame sampleHost st0 = Some st0.
Proof.
  split; [reflexivity|]. split; [exact requestsTidy_resting|].
  split; [reflexivity|].
  exact (startGame_starts_once sampleHost restingState eq_refl
           requestsTidy_resting eq_refl).
Defined.

(** The vertical velocity over a start and two frames with W held. *)
Lemma velocity_stays_horizontal_witness :
  zeroOrNaN (THREE.y (velocity (init sampleHost "Press start"))) = true
  /\ exists st' : Game,
       handleEvents sampleHost
         [start_click; keydown_event "KeyW"; frame_event 1016; frame_event 1033]
         (init sampleHost "Press start") = Some st'
       /\ zeroOrNaN (THREE.y (velocity st')) = true.
Proof.
  split; [reflexivity|].
  exact (velocity_stays_horizontal sampleHost _ (init sampleHost "Press start")
           eq_refl).
Defined.

(** A shake requested at rest. *)
Lemma shakeCamera_leaves_one_shake_witness :
  requestsTidy restingState
  /\ requestsTidy (shakeCamera sampleHost 0.35 350 restingState)
  /\ (pendingTicks (shakeCamera sampleHost 0.35 350 restingState) <= 1)%nat.
Proof.
  pose proof (shakeCamera_leaves_one_shake sampleHost 0.35 350 restingState
                requestsTidy_resting) as H.
  split; [exact requestsTidy_resting|]. split; apply H.
Defined.
